(** * MicrowaveSmbv: the R&S SMB100A / SMBV100A microwave source driver

    A shallow embedding of [qudi/hardware/microwave/mw_source_smbv.py].

    The driver is a class whose methods talk to one instrument over a VISA
    session.  Its attributes become the record [Driver]; its methods become
    computations in a small state-and-exception monad [M]; the instrument on
    the other end of the bus is the record [Device], which answers queries
    and keeps the list of the commands written to it.  The unbounded polling
    loops of the source ([while ...: time.sleep(0.2)]) take a fuel argument:
    a computation that exhausts it has no result ([None]). *)

From Stdlib Require Import ZArith List Ascii String Bool Lia.
From Stdlib Require Import SpecFloat.
Import ListNotations.

Local Open Scope Z_scope.

(** ** Numbers

    Frequencies and powers are Python floats and [numpy.float64] values:
    IEEE 754 binary64.  They are modelled by the executable specification
    floats of the standard library at precision 53 and maximal exponent
    1024.  Integer literals of the source ([-145], [30], [5]) are embedded
    by [of_Z], which is exact below 2^53. *)
Module F64.

Definition prec : Z := 53.
Definition emax : Z := 1024.

Definition float : Type := spec_float.

Definition of_Z (z : Z) : float := binary_normalize prec emax z 0 false.

Definition sub : float -> float -> float := SFsub prec emax.
Definition div : float -> float -> float := SFdiv prec emax.
Definition ltb : float -> float -> bool := SFltb.
Definition leb : float -> float -> bool := SFleb.

End F64.

Abbreviation float := F64.float.

(** Python's built-in [max(a, b)]: the first argument is kept unless the
    second compares strictly greater. *)
Definition py_max2 (a b : float) : float := if F64.ltb a b then b else a.

(** Python's built-in [min] and [max] over a three-element tuple: a running
    result, replaced by a later item that compares strictly smaller
    (respectively greater). *)
Definition py_min3 (v : float * float * float) : float :=
  let '(a, b, c) := v in
  let r := if F64.ltb b a then b else a in
  if F64.ltb c r then c else r.

Definition py_max3 (v : float * float * float) : float :=
  let '(a, b, c) := v in
  let r := if F64.ltb a b then b else a in
  if F64.ltb r c then c else r.

(** Python's built-in [min(value)] and [max(value)] over a sequence of any
    length, by the same running result.  [None] stands for the [ValueError]
    raised on an empty sequence. *)
Definition py_min (value : list float) : option float :=
  match value with
  | [] => None
  | first :: rest =>
      Some (fold_left (fun r item => if F64.ltb item r then item else r) rest first)
  end.

Definition py_max (value : list float) : option float :=
  match value with
  | [] => None
  | first :: rest =>
      Some (fold_left (fun r item => if F64.ltb r item then item else r) rest first)
  end.

(** [len(value)] *)
Definition py_len (value : list float) : Z := Z.of_nat (List.length value).

(** The three-element tuple [(a, b, c)] as a sequence. *)
Definition seq3 (v : float * float * float) : list float :=
  let '(a, b, c) := v in [a; b; c].

(** ** Enumerations

    Modelled from the spec: [SamplingOutputMode] and [TriggerEdge] come from
    [qudi.core.enums], which is not part of this file.  The spec has one
    supported scan mode (equidistant sweep) and two trigger slopes (rising,
    falling); the members below are the ones the driver names, [JUMP_LIST]
    and [EQUIDISTANT_SWEEP] in the docstring of [scan_frequencies], [RISING]
    and [FALLING] in [trigger_edge]. *)

Inductive SamplingOutputMode : Type :=
| JUMP_LIST
| EQUIDISTANT_SWEEP.

Inductive TriggerEdge : Type :=
| RISING
| FALLING.

Definition SamplingOutputMode_eqb (a b : SamplingOutputMode) : bool :=
  match a, b with
  | JUMP_LIST, JUMP_LIST | EQUIDISTANT_SWEEP, EQUIDISTANT_SWEEP => true
  | _, _ => false
  end.

Definition TriggerEdge_eqb (a b : TriggerEdge) : bool :=
  match a, b with
  | RISING, RISING | FALLING, FALLING => true
  | _, _ => false
  end.

(** ** MicrowaveConstraints *)

(** Modelled from the spec: the class [MicrowaveConstraints] of
    [qudi.interface.microwave_interface] is not part of this file.  The spec
    describes it as an immutable bounds object holding the power range, the
    frequency range, the allowed scan-size range and the supported scan
    modes; the driver constructs it with these four arguments and reads
    [min_power], [power_limits], [frequency_limits] and [scan_size_limits]
    back. *)
Record MicrowaveConstraints : Type := mkConstraints {
  power_limits : float * float;
  frequency_limits : float * float;
  scan_size_limits : Z * Z;
  scan_modes : list SamplingOutputMode
}.

Definition min_power (c : MicrowaveConstraints) : float := fst (power_limits c).

(** Modelled from the spec: the range tests of [MicrowaveConstraints].  The
    driver uses component [0] of their result as the verdict; a value is in
    range when it is neither below the lower nor above the upper limit. *)
Definition in_range (value lower upper : float) : bool * float :=
  if F64.ltb value lower then (false, lower)
  else if F64.ltb upper value then (false, upper)
  else (true, value).

Definition in_range_int (value lower upper : Z) : bool * Z :=
  if value <? lower then (false, lower)
  else if upper <? value then (false, upper)
  else (true, value).

Definition power_in_range (c : MicrowaveConstraints) (value : float) :=
  in_range value (fst (power_limits c)) (snd (power_limits c)).

Definition frequency_in_range (c : MicrowaveConstraints) (value : float) :=
  in_range value (fst (frequency_limits c)) (snd (frequency_limits c)).

Definition scan_size_in_range (c : MicrowaveConstraints) (value : Z) :=
  in_range_int value (fst (scan_size_limits c)) (snd (scan_size_limits c)).

Definition mode_supported (c : MicrowaveConstraints) (m : SamplingOutputMode) : bool :=
  existsb (SamplingOutputMode_eqb m) (scan_modes c).

(** ** The instrument

    The driver sends SCPI text and parses text replies.  The commands it
    can send form the type [Command]; numeric arguments, which the source
    renders with the format [:f], are carried as the number itself. *)

(** Reply of [:FREQ:MODE?] for the two modes the driver programs. *)
Inductive FreqMode : Type :=
| CW
| SWEEP.

Inductive Slope : Type :=
| POS
| NEG.

Inductive Command : Type :=
| CLS                          (* *CLS *)
| RST                          (* *RST *)
| WAI                          (* *WAI *)
| FREQ_MODE (m : FreqMode)     (* :FREQ:MODE CW, :FREQ:MODE SWEEP *)
| FREQ (v : float)             (* :FREQ <v> *)
| POW (v : float)              (* :POW <v> *)
| OUTP_STAT (on : bool)        (* :OUTP:STAT ON, OUTP:STAT OFF *)
| TRIG1_SLOP (s : Slope)       (* :TRIG1:SLOP POS, :TRIG1:SLOP NEG *)
| SWE_MODE_STEP                (* :SWE:MODE STEP *)
| SWE_SPAC_LIN                 (* :SWE:SPAC LIN *)
| FREQ_START (v : float)       (* :FREQ:START <v> *)
| FREQ_STOP (v : float)        (* :FREQ:STOP <v> *)
| SWE_STEP_LIN (v : float)     (* :SWE:STEP:LIN <v> *)
| TRIG_FSW_SOUR_EXT            (* TRIG:FSW:SOUR EXT *)
| ABOR_SWE.                    (* :ABOR:SWE *)

(** The instrument as the driver can observe it: the registers behind the
    queries the driver issues, and the log of everything written.  Two
    counters make completion asynchronous: after a write, [*OPC?] answers 0
    for [latency] polls; after an output switch, [OUTP:STAT?] keeps
    answering the previous state for [latency] polls. *)
Record Device : Type := mkDevice {
  idn_model : string;      (* second comma-separated field of the *IDN? reply *)
  latency : nat;
  busy : nat;              (* *OPC? polls still answered with 0 *)
  freq_mode : FreqMode;
  reg_freq : float;
  reg_pow : float;
  outp_stat : bool;        (* output state reported while the switch is pending *)
  outp_next : bool;        (* output state requested last *)
  outp_lag : nat;          (* OUTP:STAT? polls until the switch shows *)
  trig_slope : Slope;
  written : list Command   (* every command written, oldest first *)
}.

Definition outp_reported (d : Device) : bool :=
  match outp_lag d with
  | O => outp_next d
  | S _ => outp_stat d
  end.

(** Effect of a command on the registers.  [*RST] is the instrument preset:
    CW mode, output off, 1 GHz, -30 dBm, positive trigger slope. *)
Definition dev_apply (c : Command) (d : Device) : Device :=
  match c with
  | RST =>
      mkDevice (idn_model d) (latency d) (busy d) CW
               (F64.of_Z 1000000000) (F64.of_Z (-30))
               false false O POS (written d)
  | FREQ_MODE m =>
      mkDevice (idn_model d) (latency d) (busy d) m (reg_freq d) (reg_pow d)
               (outp_stat d) (outp_next d) (outp_lag d) (trig_slope d) (written d)
  | FREQ v =>
      mkDevice (idn_model d) (latency d) (busy d) (freq_mode d) v (reg_pow d)
               (outp_stat d) (outp_next d) (outp_lag d) (trig_slope d) (written d)
  | POW v =>
      mkDevice (idn_model d) (latency d) (busy d) (freq_mode d) (reg_freq d) v
               (outp_stat d) (outp_next d) (outp_lag d) (trig_slope d) (written d)
  | OUTP_STAT on =>
      mkDevice (idn_model d) (latency d) (busy d) (freq_mode d) (reg_freq d) (reg_pow d)
               (outp_reported d) on (latency d) (trig_slope d) (written d)
  | TRIG1_SLOP s =>
      mkDevice (idn_model d) (latency d) (busy d) (freq_mode d) (reg_freq d) (reg_pow d)
               (outp_stat d) (outp_next d) (outp_lag d) s (written d)
  | _ => d
  end.

(** [device.write(c)]: the command takes effect, is logged, and leaves an
    operation pending. *)
Definition dev_write (c : Command) (d : Device) : Device :=
  let d' := dev_apply c d in
  mkDevice (idn_model d') (latency d') (latency d') (freq_mode d') (reg_freq d')
           (reg_pow d') (outp_stat d') (outp_next d') (outp_lag d') (trig_slope d')
           (written d' ++ [c]).

Definition set_busy (k : nat) (d : Device) : Device :=
  mkDevice (idn_model d) (latency d) k (freq_mode d) (reg_freq d) (reg_pow d)
           (outp_stat d) (outp_next d) (outp_lag d) (trig_slope d) (written d).

Definition set_outp_lag (k : nat) (d : Device) : Device :=
  mkDevice (idn_model d) (latency d) (busy d) (freq_mode d) (reg_freq d) (reg_pow d)
           (outp_stat d) (outp_next d) k (trig_slope d) (written d).

(** [int(float(device.query('*OPC?')))] *)
Definition dev_query_opc (d : Device) : Z * Device :=
  match busy d with
  | O => (1, d)
  | S k => (0, set_busy k d)
  end.

(** [int(float(device.query('OUTP:STAT?')))] *)
Definition dev_query_outp (d : Device) : Z * Device :=
  match outp_lag d with
  | O => (if outp_next d then 1 else 0, d)
  | S k => (if outp_stat d then 1 else 0, set_outp_lag k d)
  end.

(** ** Computations

    A method runs on a state, and either runs out of fuel inside a polling
    loop ([None]), returns a value, or raises; in the last two cases the
    state reached is part of the result, since Python keeps the assignments
    made before an exception. *)

Inductive exn : Type :=
| RuntimeError
| AssertionError
| AttributeError
| TypeError
| ValueError.

Inductive outcome (A : Type) : Type :=
| Ret (a : A)
| Raise (e : exn).

Arguments Ret {A} a.
Arguments Raise {A} e.

Definition M (S A : Type) : Type := S -> option (outcome A * S).

Definition ret {S A : Type} (a : A) : M S A := fun s => Some (Ret a, s).

Definition raise {S A : Type} (e : exn) : M S A := fun s => Some (Raise e, s).

Definition bind {S A B : Type} (m : M S A) (k : A -> M S B) : M S B :=
  fun s =>
    match m s with
    | None => None
    | Some (Raise e, s') => Some (Raise e, s')
    | Some (Ret a, s') => k a s'
    end.

Definition gets {S A : Type} (f : S -> A) : M S A := fun s => Some (Ret (f s), s).

Definition modify {S : Type} (f : S -> S) : M S unit := fun s => Some (Ret tt, f s).

(** The [assert] statement. *)
Definition assert_ {S : Type} (b : bool) : M S unit :=
  if b then ret tt else raise AssertionError.

Declare Scope drv_scope.
Delimit Scope drv_scope with drv.
Notation "x <- m ;; k" := (bind m (fun x => k))
  (at level 61, m at next level, right associativity) : drv_scope.
Notation "m ;; k" := (bind m (fun _ => k))
  (at level 61, right associativity) : drv_scope.
Local Open Scope drv_scope.

(** *** Bus operations *)

Definition write (c : Command) : M Device unit := modify (dev_write c).

Definition query_opc : M Device Z :=
  fun d => let '(r, d') := dev_query_opc d in Some (Ret r, d').

Definition query_outp_stat : M Device Z :=
  fun d => let '(r, d') := dev_query_outp d in Some (Ret r, d').

(** [while int(float(self._device.query('*OPC?'))) != 1: time.sleep(0.2)] *)
Fixpoint wait_opc (fuel : nat) : M Device unit :=
  match fuel with
  | O => fun _ => None
  | S fuel' =>
      r <- query_opc ;;
      if negb (r =? 1) then wait_opc fuel' else ret tt
  end.

(** [while int(float(self._device.query(':OUTP:STAT?'))) == 0: time.sleep(0.2)] *)
Fixpoint wait_outp_on (fuel : nat) : M Device unit :=
  match fuel with
  | O => fun _ => None
  | S fuel' =>
      r <- query_outp_stat ;;
      if r =? 0 then wait_outp_on fuel' else ret tt
  end.

(** [while int(float(self._device.query('OUTP:STAT?'))) != 0: time.sleep(0.2)] *)
Fixpoint wait_outp_off (fuel : nat) : M Device unit :=
  match fuel with
  | O => fun _ => None
  | S fuel' =>
      r <- query_outp_stat ;;
      if negb (r =? 0) then wait_outp_off fuel' else ret tt
  end.

Definition _command_wait (fuel : nat) (command_str : Command) : M Device unit :=
  write command_str ;;
  write WAI ;;
  wait_opc fuel.

Definition _in_cw_mode : M Device bool :=
  gets (fun d => match freq_mode d with CW => true | SWEEP => false end).

Definition query_pow : M Device float := gets reg_pow.     (* float(query(':POW?')) *)
Definition query_freq : M Device float := gets reg_freq.   (* float(query(':FREQ?')) *)
Definition query_trig_slope : M Device Slope := gets trig_slope.
Definition query_idn_model : M Device string := gets idn_model.

(** ** The driver object *)

(** Modelled from the spec: the output lock flag.  [self.module_state] is
    the framework's state machine, outside this file; for an activated
    module [self.module_state()] is ['idle'] or ['locked'], and
    [module_state.lock()] and [module_state.unlock()] move between the two. *)
Inductive ModuleState : Type :=
| idle
| locked.

Definition is_idle (s : ModuleState) : bool :=
  match s with idle => true | locked => false end.

Record Driver : Type := mkDriver {
  module_state : ModuleState;
  _device : Device;
  _model : string;
  _constraints : MicrowaveConstraints;
  _cw_power : float;
  _cw_frequency : float;
  _scan_power : float;
  _scan_frequencies : option (list float)
}.

Definition set_module_state (v : ModuleState) (s : Driver) : Driver :=
  mkDriver v (_device s) (_model s) (_constraints s) (_cw_power s)
           (_cw_frequency s) (_scan_power s) (_scan_frequencies s).

Definition set_device (v : Device) (s : Driver) : Driver :=
  mkDriver (module_state s) v (_model s) (_constraints s) (_cw_power s)
           (_cw_frequency s) (_scan_power s) (_scan_frequencies s).

Definition set_cw_power (v : float) (s : Driver) : Driver :=
  mkDriver (module_state s) (_device s) (_model s) (_constraints s) v
           (_cw_frequency s) (_scan_power s) (_scan_frequencies s).

Definition set_cw_frequency (v : float) (s : Driver) : Driver :=
  mkDriver (module_state s) (_device s) (_model s) (_constraints s) (_cw_power s)
           v (_scan_power s) (_scan_frequencies s).

Definition set_scan_power (v : float) (s : Driver) : Driver :=
  mkDriver (module_state s) (_device s) (_model s) (_constraints s) (_cw_power s)
           (_cw_frequency s) v (_scan_frequencies s).

Definition set_scan_frequencies (v : option (list float)) (s : Driver) : Driver :=
  mkDriver (module_state s) (_device s) (_model s) (_constraints s) (_cw_power s)
           (_cw_frequency s) (_scan_power s) v.

(** [self._device.<op>] and the private helpers, which only touch the bus. *)
Definition dev {A : Type} (m : M Device A) : M Driver A :=
  fun s =>
    match m (_device s) with
    | None => None
    | Some (r, d') => Some (r, set_device d' s)
    end.

(** The cached setpoints: the CW pair, the scan power and the scan
    frequencies. *)
Definition setpoints (s : Driver) :
  float * float * float * option (list float) :=
  (_cw_frequency s, _cw_power s, _scan_power s, _scan_frequencies s).

(** *** Activation *)

Record Config : Type := mkConfig {
  _visa_address : string;
  _comm_timeout : Z;
  _max_power : option float
}.

Definition hw_min_power : float := F64.of_Z (-145).
Definition hw_max_power : float := F64.of_Z 30.

(** Line 79 reads the attribute [self.model], while the class assigns only
    [self._model].  What that lookup yields depends on the framework base
    class, which is outside this file; it is the argument [self_model], with
    [None] for a lookup that fails. *)
Definition on_activate (cfg : Config) (self_model : option string) (fuel : nat)
           (opened : Device) : option (outcome Driver) :=
  match (m <- query_idn_model ;;
         _command_wait fuel CLS ;;
         _command_wait fuel RST ;;
         ret m) opened with
  | None => None
  | Some (Raise e, _) => Some (Raise e)
  | Some (Ret m, d) =>
      match self_model with
      | None => Some (Raise AttributeError)
      | Some name =>
          let freq_limits :=
            if String.eqb name "SMB100A"
            then (F64.of_Z 9000, F64.of_Z 3200000000)
            else (F64.of_Z 9000, F64.of_Z 6000000000) in
          let c :=
            mkConstraints
              (hw_min_power,
               match _max_power cfg with
               | None => hw_max_power
               | Some mp => py_max2 hw_min_power mp
               end)
              freq_limits
              (2, 10001)
              [EQUIDISTANT_SWEEP] in
          Some (Ret (mkDriver idle d m c (min_power c) (F64.of_Z 2870000000)
                              (min_power c) None))
      end
  end.

(** *** Sweep programming *)

Definition sweep_step (v : float * float * float) : float :=
  let '(start, stop, points) := v in
  F64.div (F64.sub stop start) (F64.sub points (F64.of_Z 1)).

Definition _write_sweep (fuel : nat) : M Driver unit :=
  cw <- dev _in_cw_mode ;;
  (if cw then dev (_command_wait fuel (FREQ_MODE SWEEP)) else ret tt) ;;
  sf <- gets _scan_frequencies ;;
  match sf with
  | None => raise TypeError
  | Some [start; stop; points] =>
      let step := F64.div (F64.sub stop start) (F64.sub points (F64.of_Z 1)) in
      dev (write SWE_MODE_STEP) ;;
      dev (write SWE_SPAC_LIN) ;;
      dev (write WAI) ;;
      dev (write (FREQ_START (F64.sub start step))) ;;
      dev (write (FREQ_STOP stop)) ;;
      dev (write (SWE_STEP_LIN step)) ;;
      dev (write WAI) ;;
      p <- gets _scan_power ;;
      dev (write (POW p)) ;;
      dev (write WAI) ;;
      dev (_command_wait fuel TRIG_FSW_SOUR_EXT)
  | Some _ => raise ValueError
  end.

(** *** Setters *)

Definition cw_power_setter (fuel : nat) (value : float) : M Driver unit :=
  st <- gets module_state ;;
  if negb (is_idle st) then raise RuntimeError else
  c <- gets _constraints ;;
  assert_ (fst (power_in_range c value)) ;;
  cw <- dev _in_cw_mode ;;
  (if negb cw then dev (_command_wait fuel (FREQ_MODE CW)) else ret tt) ;;
  f <- gets _cw_frequency ;;
  dev (_command_wait fuel (FREQ f)) ;;
  dev (_command_wait fuel (POW value)) ;;
  p' <- dev query_pow ;;
  modify (set_cw_power p') ;;
  f' <- dev query_freq ;;
  modify (set_cw_frequency f').

Definition cw_frequency_setter (fuel : nat) (value : float) : M Driver unit :=
  st <- gets module_state ;;
  if negb (is_idle st) then raise RuntimeError else
  c <- gets _constraints ;;
  assert_ (fst (frequency_in_range c value)) ;;
  cw <- dev _in_cw_mode ;;
  (if negb cw then dev (_command_wait fuel (FREQ_MODE CW)) else ret tt) ;;
  dev (_command_wait fuel (FREQ value)) ;;
  p <- gets _cw_power ;;
  dev (_command_wait fuel (POW p)) ;;
  p' <- dev query_pow ;;
  modify (set_cw_power p') ;;
  f' <- dev query_freq ;;
  modify (set_cw_frequency f').

Definition scan_power_setter (fuel : nat) (value : float) : M Driver unit :=
  st <- gets module_state ;;
  if negb (is_idle st) then raise RuntimeError else
  c <- gets _constraints ;;
  assert_ (fst (power_in_range c value)) ;;
  modify (set_scan_power value) ;;
  sf <- gets _scan_frequencies ;;
  match sf with
  | Some _ => _write_sweep fuel
  | None => ret tt
  end.

(** [value] is whatever sequence of numbers the caller assigns: the checks
    use [min(value)], [max(value)] and [len(value)], and
    [np.array(value, dtype=np.float64)] stores it as it is.  Only
    [_write_sweep] requires three elements, when it unpacks
    [start, stop, points]. *)
Definition scan_frequencies_setter (fuel : nat) (value : list float)
  : M Driver unit :=
  st <- gets module_state ;;
  if negb (is_idle st) then raise RuntimeError else
  c <- gets _constraints ;;
  match py_min value, py_max value with
  | Some lowest, Some highest =>
      assert_ (fst (frequency_in_range c lowest)
               && fst (frequency_in_range c highest)) ;;
      assert_ (fst (scan_size_in_range c (py_len value))) ;;
      modify (set_scan_frequencies (Some value)) ;;
      _write_sweep fuel
  | _, _ => raise ValueError
  end.

Definition scan_mode_setter (value : SamplingOutputMode) : M Driver unit :=
  st <- gets module_state ;;
  if negb (is_idle st) then raise RuntimeError else
  c <- gets _constraints ;;
  assert_ (mode_supported c value) ;;
  modify (set_scan_frequencies None).

Definition trigger_edge_setter (fuel : nat) (value : TriggerEdge) : M Driver unit :=
  st <- gets module_state ;;
  if negb (is_idle st) then raise RuntimeError else
  let edge := if TriggerEdge_eqb value FALLING then NEG else POS in
  dev (_command_wait fuel (TRIG1_SLOP edge)).

(** *** Getters *)

Definition cw_power : M Driver float := gets _cw_power.
Definition cw_frequency : M Driver float := gets _cw_frequency.
Definition scan_power : M Driver float := gets _scan_power.
Definition scan_frequencies : M Driver (option (list float)) :=
  gets _scan_frequencies.
Definition scan_mode : M Driver SamplingOutputMode := ret EQUIDISTANT_SWEEP.

Definition trigger_edge : M Driver TriggerEdge :=
  edge <- dev query_trig_slope ;;
  ret (match edge with NEG => FALLING | POS => RISING end).

Definition is_scanning : M Driver bool :=
  st <- gets module_state ;;
  if negb (is_idle st) then (cw <- dev _in_cw_mode ;; ret (negb cw)) else ret false.

(** *** Output control *)

Definition off (fuel : nat) : M Driver unit :=
  st <- gets module_state ;;
  if negb (is_idle st) then
    dev (write (OUTP_STAT false)) ;;
    dev (write WAI) ;;
    dev (wait_outp_off fuel) ;;
    modify (set_module_state idle)
  else ret tt.

Definition cw_on (fuel : nat) : M Driver unit :=
  st <- gets module_state ;;
  if negb (is_idle st) then
    cw <- dev _in_cw_mode ;;
    if cw then ret tt else raise RuntimeError
  else
    cw <- dev _in_cw_mode ;;
    (if negb cw then
       dev (_command_wait fuel (FREQ_MODE CW)) ;;
       f <- gets _cw_frequency ;;
       dev (_command_wait fuel (FREQ f)) ;;
       p <- gets _cw_power ;;
       dev (_command_wait fuel (POW p))
     else ret tt) ;;
    dev (write (OUTP_STAT true)) ;;
    dev (write WAI) ;;
    dev (wait_outp_on fuel) ;;
    modify (set_module_state locked).

(** Lines 309 and 330 test [self._in_cw_mode], the bound method itself, not
    the result of calling it.  A bound method object is always true. *)
Definition _in_cw_mode_attribute_truth : bool := true.

Definition start_scan (fuel : nat) : M Driver unit :=
  st <- gets module_state ;;
  if negb (is_idle st) then
    if negb _in_cw_mode_attribute_truth then ret tt else raise RuntimeError
  else
    sf <- gets _scan_frequencies ;;
    assert_ (match sf with Some _ => true | None => false end) ;;
    cw <- dev _in_cw_mode ;;
    (if cw then dev (_command_wait fuel (FREQ_MODE SWEEP)) else ret tt) ;;
    dev (write (OUTP_STAT true)) ;;
    dev (wait_outp_on fuel) ;;
    modify (set_module_state locked).

Definition reset_scan (fuel : nat) : M Driver unit :=
  st <- gets module_state ;;
  if is_idle st then ret tt else
  if _in_cw_mode_attribute_truth then raise RuntimeError else
  dev (_command_wait fuel ABOR_SWE).

(** *** The public operations as one type of calls *)

Inductive Call : Type :=
| Set_cw_power (value : float)
| Set_cw_frequency (value : float)
| Set_scan_power (value : float)
| Set_scan_frequencies (value : list float)
| Set_scan_mode (value : SamplingOutputMode)
| Set_trigger_edge (value : TriggerEdge)
| Call_off
| Call_cw_on
| Call_start_scan
| Call_reset_scan.

Definition is_setter (c : Call) : bool :=
  match c with
  | Call_off | Call_cw_on | Call_start_scan | Call_reset_scan => false
  | _ => true
  end.

Definition run (fuel : nat) (c : Call) : M Driver unit :=
  match c with
  | Set_cw_power v => cw_power_setter fuel v
  | Set_cw_frequency v => cw_frequency_setter fuel v
  | Set_scan_power v => scan_power_setter fuel v
  | Set_scan_frequencies v => scan_frequencies_setter fuel v
  | Set_scan_mode m => scan_mode_setter m
  | Set_trigger_edge e => trigger_edge_setter fuel e
  | Call_off => off fuel
  | Call_cw_on => cw_on fuel
  | Call_start_scan => start_scan fuel
  | Call_reset_scan => reset_scan fuel
  end.

(** ** A bench set-up used to run the driver on concrete inputs *)

(** An SMBV100A that needs two polls to complete an operation, found in
    sweep mode with its output on. *)
Definition bench_device : Device :=
  mkDevice "SMBV100A" 2 0 SWEEP (F64.of_Z 5000000) (F64.of_Z 7)
           true true 0 NEG [].

Definition bench_config : Config :=
  mkConfig "GPIB0::12::INSTR" 10 None.

(** The driver object [on_activate] leaves behind on the bench. *)
Definition bench_driver : Driver :=
  mkDriver idle
           (mkDevice "SMBV100A" 2 0 CW (F64.of_Z 1000000000) (F64.of_Z (-30))
                     false false 0 POS [CLS; WAI; RST; WAI])
           "SMBV100A"
           (mkConstraints (F64.of_Z (-145), F64.of_Z 30)
                          (F64.of_Z 9000, F64.of_Z 6000000000)
                          (2, 10001) [EQUIDISTANT_SWEEP])
           (F64.of_Z (-145)) (F64.of_Z 2870000000) (F64.of_Z (-145)) None.

(** A sweep request whose point count, 9001, also lies inside the frequency
    range of the constraints. *)
Definition bench_sweep : float * float * float :=
  (F64.of_Z 1000000000, F64.of_Z 2000000000, F64.of_Z 9001).

(** The bench once that sweep has been set: the triple is stored and the
    instrument, switched to sweep mode, has received the sweep block. *)
Definition bench_programmed : Driver :=
  mkDriver idle
           (mkDevice "SMBV100A" 2 0 SWEEP (F64.of_Z 1000000000) (F64.of_Z (-145))
                     false false 0 POS
                     [CLS; WAI; RST; WAI; FREQ_MODE SWEEP; WAI;
                      SWE_MODE_STEP; SWE_SPAC_LIN; WAI;
                      FREQ_START (F64.sub (F64.of_Z 1000000000) (sweep_step bench_sweep));
                      FREQ_STOP (F64.of_Z 2000000000);
                      SWE_STEP_LIN (sweep_step bench_sweep);
                      WAI; POW (F64.of_Z (-145)); WAI; TRIG_FSW_SOUR_EXT; WAI])
           "SMBV100A"
           (mkConstraints (F64.of_Z (-145), F64.of_Z 30)
                          (F64.of_Z 9000, F64.of_Z 6000000000)
                          (2, 10001) [EQUIDISTANT_SWEEP])
           (F64.of_Z (-145)) (F64.of_Z 2870000000) (F64.of_Z (-145))
           (Some (seq3 bench_sweep)).

(** The sweep of the spec's example, five points from 1 GHz to 2 GHz, and
    a sweep of 20000 points over the same span. *)
Definition five_point_sweep : float * float * float :=
  (F64.of_Z 1000000000, F64.of_Z 2000000000, F64.of_Z 5).

Definition long_sweep : float * float * float :=
  (F64.of_Z 1000000000, F64.of_Z 2000000000, F64.of_Z 20000).

(** ** The text of the replies

    The bus carries text.  Two replies are taken apart by string methods
    before the driver uses them: the identification string, of which
    [on_activate] keeps [split(',')[1]], and the frequency mode, which
    [_in_cw_mode] compares after [strip('\n').lower()].  Replies are ASCII. *)

(** [s.split(sep)] for a one-character separator: the fields between the
    occurrences of [sep], at least one field. *)
Fixpoint py_split (sep : ascii) (s : string) : list string :=
  match s with
  | EmptyString => [EmptyString]
  | String c s' =>
      if Ascii.eqb c sep then EmptyString :: py_split sep s'
      else match py_split sep s' with
           | f :: fs => String c f :: fs
           | [] => [String c EmptyString]
           end
  end.

(** [sep.join(fields)] *)
Fixpoint py_join (sep : ascii) (fields : list string) : string :=
  match fields with
  | [] => EmptyString
  | [f] => f
  | f :: fs => (f ++ String sep (py_join sep fs))%string
  end.

Fixpoint has_char (c : ascii) (s : string) : bool :=
  match s with
  | EmptyString => false
  | String a s' => Ascii.eqb a c || has_char c s'
  end.

Definition comma : ascii := ","%char.

(** [reply.split(',')[1]]; [None] stands for the [IndexError]. *)
Definition idn_model_field (reply : string) : option string :=
  nth_error (py_split comma reply) 1.

Definition newline : ascii := "010"%char.

Fixpoint newlines (n : nat) : string :=
  match n with
  | O => EmptyString
  | Datatypes.S k => String newline (newlines k)
  end.

(** [s.strip('\n')]: leading and trailing newline characters removed. *)
Fixpoint py_lstrip_nl (s : string) : string :=
  match s with
  | EmptyString => EmptyString
  | String c s' => if Ascii.eqb c newline then py_lstrip_nl s' else s
  end.

Fixpoint py_rstrip_nl (s : string) : string :=
  match s with
  | EmptyString => EmptyString
  | String c s' =>
      match py_rstrip_nl s' with
      | EmptyString => if Ascii.eqb c newline then EmptyString else String c EmptyString
      | r => String c r
      end
  end.

Definition py_strip_nl (s : string) : string := py_rstrip_nl (py_lstrip_nl s).

(** [s.lower()] on ASCII text. *)
Definition ascii_lower (c : ascii) : ascii :=
  let n := nat_of_ascii c in
  if ((65 <=? n)%nat && (n <=? 90)%nat)%bool then ascii_of_nat (n + 32) else c.

Fixpoint py_lower (s : string) : string :=
  match s with
  | EmptyString => EmptyString
  | String c s' => String (ascii_lower c) (py_lower s')
  end.

(** The test of [_in_cw_mode] on the reply text:
    [reply.strip('\n').lower() == 'cw']. *)
Definition cw_reply (reply : string) : bool :=
  String.eqb (py_lower (py_strip_nl reply)) "cw".

(** ** Ways of stating what a method leaves alone *)

(** Every run of [m] that ends relates the state before to the state after. *)
Definition preserves {S A : Type} (R : S -> S -> Prop) (m : M S A) : Prop :=
  forall (s : S) (r : outcome A) (s' : S), m s = Some (r, s') -> R s s'.

(** [m] never raises. *)
Definition no_raise {S A : Type} (m : M S A) : Prop :=
  forall (s : S) (r : outcome A) (s' : S),
    m s = Some (r, s') -> exists a : A, r = Ret a.

(** [m] raises only out of a check that precedes every effect: the exception
    is [RuntimeError] or [AssertionError] and the state is the one it
    started from. *)
Definition rejects_cleanly {S A : Type} (m : M S A) : Prop :=
  forall (s : S) (e : exn) (s' : S),
    m s = Some (Raise e, s') ->
    (e = RuntimeError \/ e = AssertionError) /\ s' = s.

(** Two driver states agree on the attribute(s) [f]. *)
Definition same {X : Type} (f : Driver -> X) (s s' : Driver) : Prop := f s' = f s.

(** ** Bus-level lemmas *)

Lemma wait_opc_done (n : nat) :
  forall (fuel : nat) (d : Device),
    busy d = n -> (n < fuel)%nat ->
    wait_opc fuel d = Some (Ret tt, set_busy 0 d).
Proof.
  induction n as [|n IH]; intros fuel d Hb Hf;
    (destruct fuel as [|fuel]; [lia|]).
  - cbn. unfold bind, query_opc, dev_query_opc. rewrite Hb. cbn.
    unfold ret. do 3 f_equal. destruct d; cbn in *; subst; reflexivity.
  - cbn. unfold bind, query_opc, dev_query_opc. rewrite Hb. cbn.
    rewrite (IH fuel (set_busy n d)) by (cbn; lia || reflexivity).
    reflexivity.
Qed.

Lemma command_wait_done (fuel : nat) (c : Command) (d : Device) :
  (latency d < fuel)%nat ->
  _command_wait fuel c d = Some (Ret tt, set_busy 0 (dev_write WAI (dev_write c d))).
Proof.
  intros Hf. unfold _command_wait, bind, write, modify.
  apply wait_opc_done with (n := latency d).
  - destruct c; reflexivity.
  - exact Hf.
Qed.

Lemma set_outp_lag_twice (j k : nat) (d : Device) :
  set_outp_lag k (set_outp_lag j d) = set_outp_lag k d.
Proof. reflexivity. Qed.

Lemma set_outp_lag_same (d : Device) : set_outp_lag (outp_lag d) d = d.
Proof. destruct d; reflexivity. Qed.

(** The loop of [cw_on] and [start_scan] ends once the requested state is
    "on", after at most [outp_lag] unsuccessful polls, and the last reply
    read was "on". *)
Lemma wait_outp_on_done (n : nat) :
  forall (fuel : nat) (d : Device),
    outp_lag d = n -> outp_next d = true -> (n < fuel)%nat ->
    exists k : nat,
      wait_outp_on fuel d = Some (Ret tt, set_outp_lag k d)
      /\ outp_reported (set_outp_lag k d) = true.
Proof.
  induction n as [|n IH]; intros fuel d Hl Hn Hf;
    (destruct fuel as [|fuel]; [lia|]).
  - exists O. rewrite <- Hl at 1 2. rewrite set_outp_lag_same. split.
    + cbn. unfold bind, query_outp_stat, dev_query_outp.
      rewrite Hl, Hn. reflexivity.
    + unfold outp_reported. rewrite Hl. exact Hn.
  - cbn. unfold bind, query_outp_stat, dev_query_outp. rewrite Hl.
    destruct (outp_stat d) eqn:Hs; cbn.
    + exists n. split; [reflexivity|].
      unfold outp_reported; cbn. destruct n; assumption.
    + destruct (IH fuel (set_outp_lag n d)) as [k [Hk Hr]];
        [reflexivity | exact Hn | lia |].
      exists k. rewrite set_outp_lag_twice in Hk, Hr. split; assumption.
Qed.

(** The loop of [off], symmetrically. *)
Lemma wait_outp_off_done (n : nat) :
  forall (fuel : nat) (d : Device),
    outp_lag d = n -> outp_next d = false -> (n < fuel)%nat ->
    exists k : nat,
      wait_outp_off fuel d = Some (Ret tt, set_outp_lag k d)
      /\ outp_reported (set_outp_lag k d) = false.
Proof.
  induction n as [|n IH]; intros fuel d Hl Hn Hf;
    (destruct fuel as [|fuel]; [lia|]).
  - exists O. rewrite <- Hl at 1 2. rewrite set_outp_lag_same. split.
    + cbn. unfold bind, query_outp_stat, dev_query_outp.
      rewrite Hl, Hn. reflexivity.
    + unfold outp_reported. rewrite Hl. exact Hn.
  - cbn. unfold bind, query_outp_stat, dev_query_outp. rewrite Hl.
    destruct (outp_stat d) eqn:Hs; cbn.
    + destruct (IH fuel (set_outp_lag n d)) as [k [Hk Hr]];
        [reflexivity | exact Hn | lia |].
      exists k. rewrite set_outp_lag_twice in Hk, Hr. split; assumption.
    + exists n. split; [reflexivity|].
      unfold outp_reported; cbn. destruct n; assumption.
Qed.

(** Whatever the loop of [off] does, it only consumes lag: nothing is
    written and no register changes. *)
Lemma wait_outp_off_frame (fuel : nat) :
  forall (d d' : Device) (r : outcome unit),
    wait_outp_off fuel d = Some (r, d') ->
    r = Ret tt /\ exists k : nat, d' = set_outp_lag k d.
Proof.
  induction fuel as [|fuel IH]; intros d d' r H; [discriminate|].
  cbn in H. unfold bind, query_outp_stat, dev_query_outp in H.
  destruct (outp_lag d) as [|n] eqn:Hl.
  - destruct (outp_next d); cbn in H.
    + apply IH in H. exact H.
    + inversion H; subst. split; [reflexivity|].
      exists (outp_lag d'). symmetry; apply set_outp_lag_same.
  - destruct (outp_stat d); cbn in H.
    + apply IH in H. destruct H as [Hr [k Hk]]. split; [exact Hr|].
      exists k. rewrite Hk. reflexivity.
    + inversion H; subst. split; [reflexivity|]. exists n; reflexivity.
Qed.

(** ** The output lock gates the setters *)

Lemma setter_locked (c : Call) (fuel : nat) (st : Driver) :
  is_setter c = true ->
  module_state st = locked ->
  run fuel c st = Some (Raise RuntimeError, st).
Proof.
  intros Hc Hl.
  destruct c; try discriminate Hc; cbn [run];
    [ unfold cw_power_setter | unfold cw_frequency_setter
    | unfold scan_power_setter | unfold scan_frequencies_setter
    | unfold scan_mode_setter | unfold trigger_edge_setter ];
    unfold bind at 1; unfold gets at 1; rewrite Hl; reflexivity.
Qed.

Lemma off_locked_frame (fuel : nat) (st st' : Driver) (r : outcome unit) :
  module_state st = locked ->
  off fuel st = Some (r, st') ->
  r = Ret tt /\ module_state st' = idle /\ setpoints st' = setpoints st.
Proof.
  intros Hl H. unfold off in H. unfold bind at 1 in H. unfold gets at 1 in H.
  rewrite Hl in H. cbn [is_idle negb] in H.
  unfold bind, dev, write, modify in H. cbn in H.
  destruct (wait_outp_off fuel _) as [[r0 d0]|] eqn:Hw; [|discriminate].
  apply wait_outp_off_frame in Hw. destruct Hw as [-> _].
  inversion H; subst. repeat split; reflexivity.
Qed.

Lemma cw_on_locked (fuel : nat) (st : Driver) :
  module_state st = locked ->
  cw_on fuel st =
    Some (match freq_mode (_device st) with
          | CW => Ret tt
          | SWEEP => Raise RuntimeError
          end, st).
Proof.
  intros Hl. unfold cw_on. unfold bind at 1. unfold gets at 1.
  rewrite Hl. cbn [is_idle negb].
  unfold bind, dev, _in_cw_mode, gets.
  destruct st as [ms d mo c p f sp sf]; cbn.
  destruct (freq_mode d); reflexivity.
Qed.

Lemma start_scan_locked (fuel : nat) (st : Driver) :
  module_state st = locked ->
  start_scan fuel st = Some (Raise RuntimeError, st).
Proof.
  intros Hl. unfold start_scan. unfold bind at 1. unfold gets at 1.
  rewrite Hl. reflexivity.
Qed.

Lemma reset_scan_locked (fuel : nat) (st : Driver) :
  module_state st = locked ->
  reset_scan fuel st = Some (Raise RuntimeError, st).
Proof.
  intros Hl. unfold reset_scan. unfold bind at 1. unfold gets at 1.
  rewrite Hl. reflexivity.
Qed.

(** C1.  While the output lock is set (the module state is not idle), each
    of the six setters [cw_power], [cw_frequency], [scan_power],
    [scan_frequencies], [scan_mode] and [trigger_edge] raises and leaves the
    whole driver state, cached setpoints included, as it was; and no public
    operation at all changes the cached setpoints in that state, so they are
    mutated only while the lock is clear. *)
Theorem setpoints_frozen_while_locked :
  forall (c : Call) (fuel : nat) (st : Driver),
    module_state st = locked ->
    (is_setter c = true -> run fuel c st = Some (Raise RuntimeError, st))
    /\ (forall (r : outcome unit) (st' : Driver),
           run fuel c st = Some (r, st') -> setpoints st' = setpoints st).
Proof.
  intros c fuel st Hl. split.
  - intros Hc. apply setter_locked; assumption.
  - intros r st' H.
    destruct (is_setter c) eqn:Hc.
    + rewrite (setter_locked c fuel st Hc Hl) in H. inversion H; reflexivity.
    + destruct c; try discriminate Hc; cbn [run] in H.
      * apply (off_locked_frame fuel st st' r Hl) in H. tauto.
      * rewrite (cw_on_locked fuel st Hl) in H. inversion H; reflexivity.
      * rewrite (start_scan_locked fuel st Hl) in H. inversion H; reflexivity.
      * rewrite (reset_scan_locked fuel st Hl) in H. inversion H; reflexivity.
Qed.

Lemma setpoints_frozen_while_locked_witness :
  (is_setter (Set_cw_frequency (F64.of_Z 2000000000)) = true ->
     run 3 (Set_cw_frequency (F64.of_Z 2000000000))
         (set_module_state locked bench_driver)
       = Some (Raise RuntimeError, set_module_state locked bench_driver))
  /\ (forall (r : outcome unit) (st' : Driver),
         run 3 (Set_cw_frequency (F64.of_Z 2000000000))
             (set_module_state locked bench_driver) = Some (r, st') ->
         setpoints st' = setpoints (set_module_state locked bench_driver)).
Proof.
  apply (setpoints_frozen_while_locked
           (Set_cw_frequency (F64.of_Z 2000000000)) 3%nat
           (set_module_state locked bench_driver)).
  reflexivity.
Defined.

(** ** Activation *)

Lemma ltb_leb (x y : float) : F64.ltb x y = true -> F64.leb x y = true.
Proof.
  unfold F64.ltb, F64.leb, SFltb, SFleb.
  destruct (SFcompare x y) as [[| |]|]; intros H; try discriminate H; reflexivity.
Qed.

(** Anything above 30 is above -145: a value that compares greater than the
    positive number 30 is positive or plus infinity. *)
Lemma above_hw_max_above_hw_min (x : float) :
  F64.ltb hw_max_power x = true -> F64.ltb hw_min_power x = true.
Proof.
  destruct x as [s|s| |s m e]; try (destruct s); cbn; intros H;
    try discriminate H; reflexivity.
Qed.

Lemma on_activate_runs (cfg : Config) (fuel : nat) (d : Device) (name : string) :
  (latency d < fuel)%nat ->
  on_activate cfg (Some name) fuel d =
    Some (Ret
      (mkDriver idle
         (set_busy 0 (dev_write WAI (dev_write RST
            (set_busy 0 (dev_write WAI (dev_write CLS d))))))
         (idn_model d)
         (mkConstraints
            (hw_min_power,
             match _max_power cfg with
             | None => hw_max_power
             | Some mp => py_max2 hw_min_power mp
             end)
            (if String.eqb name "SMB100A"
             then (F64.of_Z 9000, F64.of_Z 3200000000)
             else (F64.of_Z 9000, F64.of_Z 6000000000))
            (2, 10001) [EQUIDISTANT_SWEEP])
         hw_min_power (F64.of_Z 2870000000) hw_min_power None)).
Proof.
  intros Hf. unfold on_activate.
  unfold bind at 1. unfold query_idn_model at 1, gets at 1.
  unfold bind at 1. rewrite (command_wait_done fuel CLS d Hf).
  unfold bind at 1. rewrite command_wait_done by exact Hf.
  reflexivity.
Qed.

(** C10.  Activation builds the constraints with the lower power limit -145
    dBm; the upper limit is 30 dBm when [max_power] is not configured and
    Python's [max(-145, max_power)] otherwise.  The configured value is
    therefore floored at -145 but not capped: a configured [max_power] above
    30 becomes the upper limit as it is, beyond 30 dBm. *)
Theorem power_limits_at_activation :
  forall (cfg : Config) (fuel : nat) (d : Device) (name : string),
    (latency d < fuel)%nat ->
    exists st : Driver,
      on_activate cfg (Some name) fuel d = Some (Ret st)
      /\ fst (power_limits (_constraints st)) = F64.of_Z (-145)
      /\ snd (power_limits (_constraints st)) =
           match _max_power cfg with
           | None => F64.of_Z 30
           | Some mp => py_max2 (F64.of_Z (-145)) mp
           end
      /\ F64.leb (F64.of_Z (-145)) (snd (power_limits (_constraints st))) = true
      /\ (forall mp : float,
             _max_power cfg = Some mp ->
             F64.ltb (F64.of_Z 30) mp = true ->
             snd (power_limits (_constraints st)) = mp
             /\ F64.ltb (F64.of_Z 30) (snd (power_limits (_constraints st))) = true).
Proof.
  intros cfg fuel d name Hf.
  eexists. split; [apply (on_activate_runs cfg fuel d name Hf)|].
  cbn [_constraints power_limits fst snd].
  split; [reflexivity|]. split; [reflexivity|]. split.
  - destruct (_max_power cfg) as [mp|]; [|reflexivity].
    unfold py_max2. destruct (F64.ltb hw_min_power mp) eqn:Hlt.
    + apply ltb_leb. exact Hlt.
    + reflexivity.
  - intros mp Hmp Hgt. rewrite Hmp. unfold py_max2.
    change (F64.of_Z 30) with hw_max_power in Hgt.
    rewrite (above_hw_max_above_hw_min mp Hgt).
    split; [reflexivity | exact Hgt].
Qed.

Lemma power_limits_at_activation_witness :
  exists st : Driver,
    on_activate (mkConfig "GPIB0::12::INSTR" 10 (Some (F64.of_Z 40)))
                (Some "SMB100A"%string) 3 bench_device
      = Some (Ret st)
    /\ fst (power_limits (_constraints st)) = F64.of_Z (-145)
    /\ snd (power_limits (_constraints st)) =
         py_max2 (F64.of_Z (-145)) (F64.of_Z 40)
    /\ F64.leb (F64.of_Z (-145)) (snd (power_limits (_constraints st))) = true
    /\ (forall mp : float,
           Some (F64.of_Z 40) = Some mp ->
           F64.ltb (F64.of_Z 30) mp = true ->
           snd (power_limits (_constraints st)) = mp
           /\ F64.ltb (F64.of_Z 30) (snd (power_limits (_constraints st))) = true).
Proof.
  apply (power_limits_at_activation
           (mkConfig "GPIB0::12::INSTR" 10 (Some (F64.of_Z 40)))
           3%nat bench_device "SMB100A"%string).
  simpl. lia.
Defined.

Lemma bench_activation :
  on_activate bench_config (Some "SMBV100A"%string) 3 bench_device
    = Some (Ret bench_driver).
Proof. reflexivity. Qed.

(** ** Switching the output *)

#[local] Arguments _command_wait : simpl never.
#[local] Arguments wait_outp_on : simpl never.
#[local] Arguments wait_outp_off : simpl never.
#[local] Arguments F64.of_Z : simpl never.

Lemma dev_command_wait (fuel : nat) (c : Command) (st : Driver) :
  (latency (_device st) < fuel)%nat ->
  dev (_command_wait fuel c) st =
    Some (Ret tt, set_device (set_busy 0 (dev_write WAI (dev_write c (_device st)))) st).
Proof.
  intros Hf. unfold dev. rewrite (command_wait_done fuel c (_device st) Hf).
  reflexivity.
Qed.

(** Equations that run a method one statement at a time. *)
Lemma bind_bind {S A B C : Type} (m : M S A) (k : A -> M S B) (h : B -> M S C) (s : S) :
  bind (bind m k) h s = bind m (fun a => bind (k a) h) s.
Proof.
  unfold bind. destruct (m s) as [[[a|e] s']|]; reflexivity.
Qed.

Lemma bind_ret {S A B : Type} (a : A) (k : A -> M S B) (s : S) :
  bind (ret a) k s = k a s.
Proof. reflexivity. Qed.

Lemma bind_raise {S A B : Type} (e : exn) (k : A -> M S B) (s : S) :
  bind (raise e) k s = Some (Raise e, s).
Proof. reflexivity. Qed.

Lemma bind_gets {S A B : Type} (f : S -> A) (k : A -> M S B) (s : S) :
  bind (gets f) k s = k (f s) s.
Proof. reflexivity. Qed.

Lemma bind_modify {S B : Type} (f : S -> S) (k : unit -> M S B) (s : S) :
  bind (modify f) k s = k tt (f s).
Proof. reflexivity. Qed.

Lemma bind_dev_write {B : Type} (c : Command) (k : unit -> M Driver B) (s : Driver) :
  bind (dev (write c)) k s = k tt (set_device (dev_write c (_device s)) s).
Proof. reflexivity. Qed.

Lemma bind_dev_in_cw_mode {B : Type} (k : bool -> M Driver B) (s : Driver) :
  bind (dev _in_cw_mode) k s =
    k (match freq_mode (_device s) with CW => true | SWEEP => false end)
      (set_device (_device s) s).
Proof. reflexivity. Qed.

Lemma bind_dev_command_wait {B : Type} (fuel : nat) (c : Command)
      (k : unit -> M Driver B) (s : Driver) :
  (latency (_device s) < fuel)%nat ->
  bind (dev (_command_wait fuel c)) k s =
    k tt (set_device (set_busy 0 (dev_write WAI (dev_write c (_device s)))) s).
Proof.
  intros Hf. unfold bind at 1. rewrite (dev_command_wait fuel c s Hf). reflexivity.
Qed.

Lemma bind_dev_wait_outp_on {B : Type} (fuel : nat) (k : unit -> M Driver B) (s : Driver) :
  outp_next (_device s) = true ->
  (outp_lag (_device s) < fuel)%nat ->
  exists j : nat,
    bind (dev (wait_outp_on fuel)) k s = k tt (set_device (set_outp_lag j (_device s)) s)
    /\ outp_reported (set_outp_lag j (_device s)) = true.
Proof.
  intros Hn Hf.
  destruct (wait_outp_on_done _ fuel (_device s) eq_refl Hn Hf) as [j [Hj Hr]].
  exists j. split; [|exact Hr].
  unfold bind at 1. unfold dev at 1. rewrite Hj. reflexivity.
Qed.

Lemma bind_dev_wait_outp_off {B : Type} (fuel : nat) (k : unit -> M Driver B) (s : Driver) :
  outp_next (_device s) = false ->
  (outp_lag (_device s) < fuel)%nat ->
  exists j : nat,
    bind (dev (wait_outp_off fuel)) k s = k tt (set_device (set_outp_lag j (_device s)) s)
    /\ outp_reported (set_outp_lag j (_device s)) = false.
Proof.
  intros Hn Hf.
  destruct (wait_outp_off_done _ fuel (_device s) eq_refl Hn Hf) as [j [Hj Hr]].
  exists j. split; [|exact Hr].
  unfold bind at 1. unfold dev at 1. rewrite Hj. reflexivity.
Qed.

Ltac run_step :=
  first
    [ rewrite bind_bind
    | rewrite bind_gets
    | rewrite bind_modify
    | rewrite bind_ret
    | rewrite bind_raise
    | rewrite bind_dev_write
    | rewrite bind_dev_in_cw_mode
    | rewrite bind_dev_command_wait by assumption ].

Ltac run_method :=
  repeat (run_step;
          cbn [_device _cw_power _cw_frequency _scan_power _scan_frequencies
               _constraints module_state set_device set_module_state
               set_cw_power set_cw_frequency set_scan_power
               set_scan_frequencies]).

(** [cw_on] from idle: the mode switch and the two setpoint writes happen
    only when the instrument is not in CW mode already. *)
Lemma cw_on_idle (fuel : nat) (st : Driver) :
  module_state st = idle ->
  (latency (_device st) < fuel)%nat ->
  exists st' : Driver,
    cw_on fuel st = Some (Ret tt, st')
    /\ module_state st' = locked
    /\ setpoints st' = setpoints st
    /\ _constraints st' = _constraints st
    /\ latency (_device st') = latency (_device st)
    /\ freq_mode (_device st') = CW
    /\ outp_reported (_device st') = true
    /\ written (_device st') =
         written (_device st)
         ++ match freq_mode (_device st) with
            | CW => []
            | SWEEP => [FREQ_MODE CW; WAI; FREQ (_cw_frequency st); WAI;
                        POW (_cw_power st); WAI]
            end
         ++ [OUTP_STAT true; WAI].
Proof.
  intros Hi Hf.
  unfold cw_on. run_method. rewrite Hi. cbn [is_idle negb]. run_method.
  destruct (freq_mode (_device st)) eqn:Hm; cbn [negb]; run_method.
  - match goal with
    | |- context [bind (dev (wait_outp_on fuel)) ?k ?s] =>
        destruct (bind_dev_wait_outp_on fuel k s eq_refl Hf) as [j [Hj Hr]]
    end.
    rewrite Hj. eexists. split; [reflexivity|].
    repeat split; try reflexivity.
    + exact Hm.
    + exact Hr.
    + cbn. rewrite <- app_assoc. reflexivity.
  - match goal with
    | |- context [bind (dev (wait_outp_on fuel)) ?k ?s] =>
        destruct (bind_dev_wait_outp_on fuel k s eq_refl Hf) as [j [Hj Hr]]
    end.
    rewrite Hj. eexists. split; [reflexivity|].
    repeat split; try reflexivity.
    + exact Hr.
    + cbn. repeat rewrite <- app_assoc. reflexivity.
Qed.

Lemma off_idle (fuel : nat) (st : Driver) :
  module_state st = idle -> off fuel st = Some (Ret tt, st).
Proof.
  intros Hi. unfold off. run_method. rewrite Hi. reflexivity.
Qed.

Lemma off_locked (fuel : nat) (st : Driver) :
  module_state st = locked ->
  (latency (_device st) < fuel)%nat ->
  exists st' : Driver,
    off fuel st = Some (Ret tt, st')
    /\ module_state st' = idle
    /\ setpoints st' = setpoints st
    /\ outp_reported (_device st') = false
    /\ written (_device st') = written (_device st) ++ [OUTP_STAT false; WAI].
Proof.
  intros Hl Hf.
  unfold off. run_method. rewrite Hl. cbn [is_idle negb]. run_method.
  match goal with
  | |- context [bind (dev (wait_outp_off fuel)) ?k ?s] =>
      destruct (bind_dev_wait_outp_off fuel k s eq_refl Hf) as [j [Hj Hr]]
  end.
  rewrite Hj. eexists. split; [reflexivity|].
  repeat split; try reflexivity.
  - exact Hr.
  - cbn. rewrite <- app_assoc. reflexivity.
Qed.

(** C9.  From any idle state, [off(); cw_on(); off()] returns (given fuel
    for the instrument's latency), with the output lock clear and the cached
    CW frequency and power as they were. *)
Theorem off_cw_on_off_restores :
  forall (fuel : nat) (st : Driver),
    module_state st = idle ->
    (latency (_device st) < fuel)%nat ->
    exists st' : Driver,
      (off fuel ;; cw_on fuel ;; off fuel) st = Some (Ret tt, st')
      /\ module_state st' = idle
      /\ _cw_frequency st' = _cw_frequency st
      /\ _cw_power st' = _cw_power st.
Proof.
  intros fuel st Hi Hf.
  destruct (cw_on_idle fuel st Hi Hf)
    as [st1 [Hon [Hl1 [Hsp1 [_ [Hlat1 _]]]]]].
  assert (Hf1 : (latency (_device st1) < fuel)%nat) by (rewrite Hlat1; exact Hf).
  destruct (off_locked fuel st1 Hl1 Hf1) as [st2 [Hoff [Hi2 [Hsp2 _]]]].
  exists st2. split.
  - unfold bind at 1. rewrite (off_idle fuel st Hi).
    unfold bind at 1. rewrite Hon. exact Hoff.
  - split; [exact Hi2|].
    rewrite Hsp1 in Hsp2. unfold setpoints in Hsp2.
    inversion Hsp2. split; reflexivity.
Qed.

Lemma off_cw_on_off_restores_witness :
  exists st' : Driver,
    (off 3 ;; cw_on 3 ;; off 3) bench_driver = Some (Ret tt, st')
    /\ module_state st' = idle
    /\ _cw_frequency st' = _cw_frequency bench_driver
    /\ _cw_power st' = _cw_power bench_driver.
Proof.
  apply (off_cw_on_off_restores 3%nat bench_driver).
  - reflexivity.
  - simpl. lia.
Defined.

(** C6, as the code has it.  With the output active, [cw_on] raises when
    the instrument is not in CW mode and returns at once, writing nothing,
    when it is.  From idle it starts the output, polls until the output
    state reads "on" and sets the lock; the switch to CW mode and the writes
    of the cached frequency and power precede this only when the instrument
    is not in CW mode already. *)
Theorem cw_on_cases :
  forall (fuel : nat) (st : Driver),
    (latency (_device st) < fuel)%nat ->
    (module_state st = locked -> freq_mode (_device st) = SWEEP ->
       cw_on fuel st = Some (Raise RuntimeError, st))
    /\ (module_state st = locked -> freq_mode (_device st) = CW ->
          cw_on fuel st = Some (Ret tt, st))
    /\ (module_state st = idle ->
          exists st' : Driver,
            cw_on fuel st = Some (Ret tt, st')
            /\ module_state st' = locked
            /\ setpoints st' = setpoints st
            /\ freq_mode (_device st') = CW
            /\ outp_reported (_device st') = true
            /\ written (_device st') =
                 written (_device st)
                 ++ match freq_mode (_device st) with
                    | CW => []
                    | SWEEP => [FREQ_MODE CW; WAI; FREQ (_cw_frequency st); WAI;
                                POW (_cw_power st); WAI]
                    end
                 ++ [OUTP_STAT true; WAI]).
Proof.
  intros fuel st Hf. repeat split.
  - intros Hl Hm. rewrite (cw_on_locked fuel st Hl), Hm. reflexivity.
  - intros Hl Hm. rewrite (cw_on_locked fuel st Hl), Hm. reflexivity.
  - intros Hi.
    destruct (cw_on_idle fuel st Hi Hf)
      as [st' [Hon [Hl [Hsp [_ [_ [Hm [Hr Hw]]]]]]]].
    exists st'. repeat split; assumption.
Qed.

Lemma cw_on_cases_witness :
  (module_state bench_driver = locked -> freq_mode (_device bench_driver) = SWEEP ->
     cw_on 3 bench_driver = Some (Raise RuntimeError, bench_driver))
  /\ (module_state bench_driver = locked -> freq_mode (_device bench_driver) = CW ->
        cw_on 3 bench_driver = Some (Ret tt, bench_driver))
  /\ (module_state bench_driver = idle ->
        exists st' : Driver,
          cw_on 3 bench_driver = Some (Ret tt, st')
          /\ module_state st' = locked
          /\ setpoints st' = setpoints bench_driver
          /\ freq_mode (_device st') = CW
          /\ outp_reported (_device st') = true
          /\ written (_device st') =
               written (_device bench_driver)
               ++ match freq_mode (_device bench_driver) with
                  | CW => []
                  | SWEEP => [FREQ_MODE CW; WAI; FREQ (_cw_frequency bench_driver); WAI;
                              POW (_cw_power bench_driver); WAI]
                  end
               ++ [OUTP_STAT true; WAI]).
Proof.
  apply (cw_on_cases 3%nat bench_driver). simpl. lia.
Defined.

(** C6, as stated, fails right after activation: the module is idle, the
    instrument is in CW mode, and [cw_on] starts the output without sending
    the mode switch, the cached frequency or the cached power. *)
Lemma cw_on_idle_in_cw_mode_writes_no_setpoint :
  on_activate bench_config (Some "SMBV100A"%string) 3 bench_device
    = Some (Ret bench_driver)
  /\ module_state bench_driver = idle
  /\ exists st' : Driver,
       cw_on 3 bench_driver = Some (Ret tt, st')
       /\ written (_device st') =
            written (_device bench_driver) ++ [OUTP_STAT true; WAI]
       /\ ~ In (FREQ_MODE CW) (written (_device st'))
       /\ ~ In (FREQ (_cw_frequency bench_driver)) (written (_device st'))
       /\ ~ In (POW (_cw_power bench_driver)) (written (_device st')).
Proof.
  split; [reflexivity|].
  split; [reflexivity|].
  eexists. split; [vm_compute; reflexivity|].
  split; [reflexivity|].
  repeat split; cbn; intros H;
    repeat (destruct H as [H|H]; [discriminate H|]); exact H.
Qed.

(** ** Scanning *)

Lemma start_scan_idle_unset (fuel : nat) (st : Driver) :
  module_state st = idle ->
  _scan_frequencies st = None ->
  start_scan fuel st = Some (Raise AssertionError, st).
Proof.
  intros Hi Hn. unfold start_scan. run_method. rewrite Hi. cbn [is_idle negb].
  run_method. rewrite Hn. reflexivity.
Qed.

Lemma start_scan_idle_set (fuel : nat) (st : Driver) (v : list float) :
  module_state st = idle ->
  _scan_frequencies st = Some v ->
  (latency (_device st) < fuel)%nat ->
  exists st' : Driver,
    start_scan fuel st = Some (Ret tt, st')
    /\ module_state st' = locked
    /\ setpoints st' = setpoints st
    /\ freq_mode (_device st') = SWEEP
    /\ outp_reported (_device st') = true
    /\ written (_device st') =
         written (_device st)
         ++ match freq_mode (_device st) with
            | CW => [FREQ_MODE SWEEP; WAI]
            | SWEEP => []
            end
         ++ [OUTP_STAT true].
Proof.
  intros Hi Hs Hf.
  unfold start_scan. run_method. rewrite Hi. cbn [is_idle negb].
  run_method. rewrite Hs. cbn [assert_]. run_method.
  destruct (freq_mode (_device st)) eqn:Hm; run_method.
  - match goal with
    | |- context [bind (dev (wait_outp_on fuel)) ?k ?s] =>
        destruct (bind_dev_wait_outp_on fuel k s eq_refl Hf) as [j [Hj Hr]]
    end.
    rewrite Hj. eexists. split; [reflexivity|].
    repeat split; try reflexivity.
    + exact Hr.
    + cbn. repeat rewrite <- app_assoc. reflexivity.
  - match goal with
    | |- context [bind (dev (wait_outp_on fuel)) ?k ?s] =>
        destruct (bind_dev_wait_outp_on fuel k s eq_refl Hf) as [j [Hj Hr]]
    end.
    rewrite Hj. eexists. split; [reflexivity|].
    repeat split; try reflexivity.
    + exact Hm.
    + exact Hr.
Qed.

Lemma reset_scan_idle (fuel : nat) (st : Driver) :
  module_state st = idle -> reset_scan fuel st = Some (Ret tt, st).
Proof.
  intros Hi. unfold reset_scan. run_method. rewrite Hi. reflexivity.
Qed.

(** C4 at a running scan.  After activation on the bench, setting the sweep
    (1e9, 2e9, 9001) and starting it leaves the module locked with the
    instrument in sweep mode; a second [start_scan] then raises
    [RuntimeError], where the claim has it return without error. *)
Theorem start_scan_raises_while_sweeping :
  on_activate bench_config (Some "SMBV100A"%string) 3 bench_device
    = Some (Ret bench_driver)
  /\ exists st1 : Driver,
    (scan_frequencies_setter 3 (seq3 bench_sweep) ;; start_scan 3) bench_driver
      = Some (Ret tt, st1)
    /\ module_state st1 = locked
    /\ freq_mode (_device st1) = SWEEP
    /\ start_scan 3 st1 = Some (Raise RuntimeError, st1).
Proof.
  split; [reflexivity|].
  eexists. split; [vm_compute; reflexivity|].
  repeat split.
Qed.

(** C5 at a running scan.  In the same state, locked with the instrument in
    sweep mode, [reset_scan] raises [RuntimeError] and [:ABOR:SWE] is never
    written, where the claim has it issue the soft reset. *)
Theorem reset_scan_raises_while_sweeping :
  on_activate bench_config (Some "SMBV100A"%string) 3 bench_device
    = Some (Ret bench_driver)
  /\ exists st1 : Driver,
    (scan_frequencies_setter 3 (seq3 bench_sweep) ;; start_scan 3) bench_driver
      = Some (Ret tt, st1)
    /\ module_state st1 = locked
    /\ freq_mode (_device st1) = SWEEP
    /\ reset_scan 3 st1 = Some (Raise RuntimeError, st1)
    /\ ~ In ABOR_SWE (written (_device st1)).
Proof.
  split; [reflexivity|].
  eexists. split; [vm_compute; reflexivity|].
  repeat split.
  cbn. intros H.
  repeat (destruct H as [H|H]; [discriminate H|]). exact H.
Qed.

(** ** Sweep programming *)

(** [_write_sweep] on a stored triple: the step is (stop - start) / (points
    - 1), the instrument's sweep start is one step below the nominal start,
    its sweep stop is the nominal stop. *)
Lemma write_sweep_programs (fuel : nat) (st : Driver) (start stop points : float) :
  _scan_frequencies st = Some [start; stop; points] ->
  (latency (_device st) < fuel)%nat ->
  exists st' : Driver,
    _write_sweep fuel st = Some (Ret tt, st')
    /\ module_state st' = module_state st
    /\ setpoints st' = setpoints st
    /\ freq_mode (_device st') = SWEEP
    /\ written (_device st') =
         written (_device st)
         ++ match freq_mode (_device st) with
            | CW => [FREQ_MODE SWEEP; WAI]
            | SWEEP => []
            end
         ++ [SWE_MODE_STEP; SWE_SPAC_LIN; WAI;
             FREQ_START (F64.sub start (sweep_step (start, stop, points)));
             FREQ_STOP stop;
             SWE_STEP_LIN (sweep_step (start, stop, points));
             WAI; POW (_scan_power st); WAI; TRIG_FSW_SOUR_EXT; WAI].
Proof.
  intros Hs Hf. unfold _write_sweep. run_method.
  destruct (freq_mode (_device st)) eqn:Hm; run_method;
    rewrite Hs; run_method;
    rewrite dev_command_wait by assumption;
    eexists; (split; [reflexivity|]);
    repeat split; try reflexivity; try exact Hm;
    cbn; repeat rewrite <- app_assoc; reflexivity.
Qed.

(** The step of the spec's example is 0.25e9 and the sweep start programmed
    for it would be 0.75e9. *)
Lemma five_point_sweep_step :
  sweep_step five_point_sweep = F64.of_Z 250000000
  /\ F64.sub (F64.of_Z 1000000000) (sweep_step five_point_sweep) = F64.of_Z 750000000.
Proof. split; vm_compute; reflexivity. Qed.

(** ** The range checks of the [scan_frequencies] setter *)

(** What activation leaves behind, as far as the setters' checks go. *)
Lemma on_activate_inv (cfg : Config) (self_model : option string) (fuel : nat)
      (d : Device) (st : Driver) :
  on_activate cfg self_model fuel d = Some (Ret st) ->
  module_state st = idle
  /\ scan_size_limits (_constraints st) = (2, 10001)
  /\ scan_modes (_constraints st) = [EQUIDISTANT_SWEEP]
  /\ (frequency_limits (_constraints st) = (F64.of_Z 9000, F64.of_Z 3200000000)
      \/ frequency_limits (_constraints st) = (F64.of_Z 9000, F64.of_Z 6000000000)).
Proof.
  unfold on_activate. intros H.
  destruct (bind _ _ d) as [[[m|e] d']|]; try discriminate H.
  destruct self_model as [name|]; try discriminate H.
  inversion H; subst; clear H.
  cbn [module_state _constraints scan_size_limits scan_modes frequency_limits].
  repeat split.
  destruct (String.eqb name "SMB100A"); [left | right]; reflexivity.
Qed.

(** C2 at the spec's own example.  After any successful activation the
    triple (1e9, 2e9, 5) has start and stop inside the frequency range and
    its count inside the scan-size range, and yet the idle setter raises
    [AssertionError] and changes nothing: the check takes [min(value)] over
    the whole tuple, count included, and 5 is below the 9 kHz lower
    frequency limit. *)
Theorem scan_frequencies_rejects_five_point_sweep :
  forall (cfg : Config) (self_model : option string) (fuel fuel' : nat)
         (d : Device) (st : Driver),
    on_activate cfg self_model fuel d = Some (Ret st) ->
    module_state st = idle
    /\ fst (frequency_in_range (_constraints st) (F64.of_Z 1000000000)) = true
    /\ fst (frequency_in_range (_constraints st) (F64.of_Z 2000000000)) = true
    /\ fst (scan_size_in_range (_constraints st) 5) = true
    /\ scan_frequencies_setter fuel' (seq3 five_point_sweep) st
         = Some (Raise AssertionError, st).
Proof.
  intros cfg self_model fuel fuel' d st H.
  destruct (on_activate_inv cfg self_model fuel d st H) as [Hi [Hsz [_ Hfr]]].
  split; [exact Hi|].
  unfold scan_frequencies_setter, frequency_in_range, scan_size_in_range.
  run_method. rewrite Hi. cbn [is_idle negb]. run_method. rewrite Hsz.
  destruct Hfr as [Hfr|Hfr]; rewrite Hfr; repeat split; reflexivity.
Qed.

Lemma scan_frequencies_rejects_five_point_sweep_witness :
  module_state bench_driver = idle
  /\ fst (frequency_in_range (_constraints bench_driver) (F64.of_Z 1000000000)) = true
  /\ fst (frequency_in_range (_constraints bench_driver) (F64.of_Z 2000000000)) = true
  /\ fst (scan_size_in_range (_constraints bench_driver) 5) = true
  /\ scan_frequencies_setter 3 (seq3 five_point_sweep) bench_driver
       = Some (Raise AssertionError, bench_driver).
Proof.
  apply (scan_frequencies_rejects_five_point_sweep
           bench_config (Some "SMBV100A"%string) 3 3 bench_device).
  reflexivity.
Defined.

(** C3 at the spec's own example.  The sweep algorithm is as claimed: for
    (1e9, 2e9, 5) the step is 0.25e9, and [_write_sweep] run on that triple
    writes the sweep start 0.75e9, the sweep stop 2e9 and the step 0.25e9.
    But the triple cannot be set: the setter raises [AssertionError] before
    storing it, so after "setting" it nothing is stored and no sweep start
    has been written. *)
Theorem five_point_sweep_never_programmed :
  on_activate bench_config (Some "SMBV100A"%string) 3 bench_device
    = Some (Ret bench_driver)
  /\ sweep_step five_point_sweep = F64.of_Z 250000000
  /\ (exists st' : Driver,
        _write_sweep 3 (set_scan_frequencies (Some (seq3 five_point_sweep)) bench_driver)
          = Some (Ret tt, st')
        /\ In (FREQ_START (F64.of_Z 750000000)) (written (_device st'))
        /\ In (FREQ_STOP (F64.of_Z 2000000000)) (written (_device st'))
        /\ In (SWE_STEP_LIN (F64.of_Z 250000000)) (written (_device st')))
  /\ (exists st' : Driver,
        scan_frequencies_setter 3 (seq3 five_point_sweep) bench_driver
          = Some (Raise AssertionError, st')
        /\ _scan_frequencies st' = None
        /\ forall v : float, ~ In (FREQ_START v) (written (_device st'))).
Proof.
  split; [reflexivity|].
  split; [vm_compute; reflexivity|]. split.
  - eexists. split; [vm_compute; reflexivity|].
    repeat split; vm_compute; tauto.
  - eexists. split; [vm_compute; reflexivity|].
    split; [reflexivity|].
    intros v H. cbn in H.
    repeat (destruct H as [H|H]; [discriminate H|]). exact H.
Qed.

(** C7 at a count out of bounds.  20000 points is outside the scan-size
    range (2, 10001), yet the idle setter accepts (1e9, 2e9, 20000), stores
    it and programs the sweep: the size check is applied to [len(value)],
    which is 3 for every triple. *)
Theorem scan_frequencies_accepts_oversized_count :
  on_activate bench_config (Some "SMBV100A"%string) 3 bench_device
    = Some (Ret bench_driver)
  /\ fst (scan_size_in_range (_constraints bench_driver) 20000) = false
  /\ exists st' : Driver,
       scan_frequencies_setter 3 (seq3 long_sweep) bench_driver = Some (Ret tt, st')
       /\ _scan_frequencies st' = Some (seq3 long_sweep)
       /\ In (SWE_STEP_LIN (sweep_step long_sweep)) (written (_device st')).
Proof.
  split; [reflexivity|].
  split; [reflexivity|].
  eexists. split; [vm_compute; reflexivity|].
  split; [reflexivity|].
  vm_compute. tauto.
Qed.

(** The scalar setters do reject every value outside their range, in either
    module state, and keep the state. *)
Lemma scalar_setters_reject_out_of_range (fuel : nat) (st : Driver) (v : float) :
  (F64.ltb v (fst (power_limits (_constraints st))) = true
   \/ F64.ltb (snd (power_limits (_constraints st))) v = true ->
     (exists e : exn, cw_power_setter fuel v st = Some (Raise e, st))
     /\ (exists e : exn, scan_power_setter fuel v st = Some (Raise e, st)))
  /\ (F64.ltb v (fst (frequency_limits (_constraints st))) = true
      \/ F64.ltb (snd (frequency_limits (_constraints st))) v = true ->
        exists e : exn, cw_frequency_setter fuel v st = Some (Raise e, st)).
Proof.
  split; intros Hout; [split|];
    [ unfold cw_power_setter | unfold scan_power_setter | unfold cw_frequency_setter ];
    run_method; (destruct (module_state st); cbn [is_idle negb];
      [ | exists RuntimeError; reflexivity ]);
    run_method; unfold power_in_range, frequency_in_range, in_range;
    exists AssertionError;
    (destruct Hout as [Hlo|Hhi];
     [ rewrite Hlo; reflexivity
     | rewrite Hhi; destruct (F64.ltb v _); reflexivity ]).
Qed.

(** ** Scan mode *)

Lemma activation_supports_equidistant_sweep_only
      (cfg : Config) (self_model : option string) (fuel : nat) (d : Device)
      (st : Driver) (m : SamplingOutputMode) :
  on_activate cfg self_model fuel d = Some (Ret st) ->
  mode_supported (_constraints st) m = true <-> m = EQUIDISTANT_SWEEP.
Proof.
  intros H. destruct (on_activate_inv cfg self_model fuel d st H) as [_ [_ [Hm _]]].
  unfold mode_supported. rewrite Hm.
  destruct m; cbn; split; intros E; try discriminate E; reflexivity.
Qed.

(** C8, as the code has it.  While idle, setting [scan_mode] to a mode the
    constraints support clears the stored scan-frequency triple and changes
    nothing else, so that [start_scan] raises until scan frequencies are set
    again; setting a mode they do not support raises [AssertionError] and
    leaves the triple as it was. *)
Theorem scan_mode_setter_idle :
  forall (st : Driver) (m : SamplingOutputMode),
    module_state st = idle ->
    (mode_supported (_constraints st) m = true ->
       scan_mode_setter m st = Some (Ret tt, set_scan_frequencies None st)
       /\ forall fuel : nat,
            start_scan fuel (set_scan_frequencies None st)
              = Some (Raise AssertionError, set_scan_frequencies None st))
    /\ (mode_supported (_constraints st) m = false ->
          scan_mode_setter m st = Some (Raise AssertionError, st)).
Proof.
  intros st m Hi. split; intros Hm.
  - split.
    + unfold scan_mode_setter; run_method;
        rewrite Hi; cbn [is_idle negb]; run_method; rewrite Hm; reflexivity.
    + intros fuel. apply start_scan_idle_unset; [exact Hi | reflexivity].
  - unfold scan_mode_setter; run_method;
      rewrite Hi; cbn [is_idle negb]; run_method; rewrite Hm; reflexivity.
Qed.

(** The theorem at a state with a sweep stored: the bench after
    [scan_frequencies = (1e9, 2e9, 9001)].  Selecting the supported mode
    there turns the stored triple into [None], and [start_scan] then
    raises. *)
Lemma scan_mode_setter_idle_witness :
  scan_frequencies_setter 3 (seq3 bench_sweep) bench_driver
    = Some (Ret tt, bench_programmed)
  /\ _scan_frequencies bench_programmed = Some (seq3 bench_sweep)
  /\ scan_mode_setter EQUIDISTANT_SWEEP bench_programmed
       = Some (Ret tt, set_scan_frequencies None bench_programmed)
  /\ _scan_frequencies (set_scan_frequencies None bench_programmed) = None
  /\ start_scan 3 (set_scan_frequencies None bench_programmed)
       = Some (Raise AssertionError, set_scan_frequencies None bench_programmed).
Proof.
  split; [vm_compute; reflexivity|].
  split; [reflexivity|].
  pose proof (proj1 (scan_mode_setter_idle bench_programmed EQUIDISTANT_SWEEP
                       eq_refl) eq_refl) as [Hset Hstart].
  split; [exact Hset|].
  split; [reflexivity|].
  exact (Hstart 3%nat).
Defined.

(** C8, as stated, fails for [JUMP_LIST]: with a sweep stored and the module
    idle, selecting that mode raises and the stored triple stays. *)
Lemma scan_mode_jump_list_keeps_triple :
  on_activate bench_config (Some "SMBV100A"%string) 3 bench_device
    = Some (Ret bench_driver)
  /\ exists st1 : Driver,
    scan_frequencies_setter 3 (seq3 bench_sweep) bench_driver = Some (Ret tt, st1)
    /\ module_state st1 = idle
    /\ _scan_frequencies st1 = Some (seq3 bench_sweep)
    /\ scan_mode_setter JUMP_LIST st1 = Some (Raise AssertionError, st1)
    /\ _scan_frequencies st1 <> None.
Proof.
  split; [reflexivity|].
  eexists. split; [vm_compute; reflexivity|].
  repeat split. discriminate.
Qed.

(** ** The command-and-confirm helper *)

Lemma wait_opc_starved (fuel : nat) :
  forall d : Device, (fuel <= busy d)%nat -> wait_opc fuel d = None.
Proof.
  induction fuel as [|fuel IH]; intros d Hb; [reflexivity|].
  cbn. unfold bind, query_opc, dev_query_opc.
  destruct (busy d) as [|k] eqn:Hk; [lia|]. cbn.
  apply IH. cbn. lia.
Qed.

(** X16.  [_command_wait] writes the command and [*WAI], then polls [*OPC?] until
    it reads 1.  It never raises and never gives up: it returns exactly when
    the polling budget exceeds the instrument's latency, and then the
    instrument has received the two writes and reports the operation
    complete. *)
Theorem command_wait_polls_until_complete :
  forall (fuel : nat) (c : Command) (d : Device),
    _command_wait fuel c d =
      if (latency d <? fuel)%nat
      then Some (Ret tt, set_busy 0 (dev_write WAI (dev_write c d)))
      else None.
Proof.
  intros fuel c d. destruct (Nat.ltb_spec (latency d) fuel) as [Hlt|Hge].
  - apply command_wait_done. exact Hlt.
  - unfold _command_wait, bind, write, modify.
    apply wait_opc_starved. destruct c; cbn; exact Hge.
Qed.

(** ** The CW setters on an idle module *)

Lemma bind_dev_query_pow {B : Type} (k : float -> M Driver B) (s : Driver) :
  bind (dev query_pow) k s = k (reg_pow (_device s)) (set_device (_device s) s).
Proof. reflexivity. Qed.

Lemma bind_dev_query_freq {B : Type} (k : float -> M Driver B) (s : Driver) :
  bind (dev query_freq) k s = k (reg_freq (_device s)) (set_device (_device s) s).
Proof. reflexivity. Qed.

Ltac run_setter :=
  repeat (first [ run_step | rewrite bind_dev_query_pow | rewrite bind_dev_query_freq ];
          cbn [_device _cw_power _cw_frequency _scan_power _scan_frequencies
               _constraints module_state set_device set_module_state
               set_cw_power set_cw_frequency set_scan_power
               set_scan_frequencies]).

Lemma cw_frequency_setter_run (fuel : nat) (st : Driver) (v : float) :
  module_state st = idle ->
  fst (frequency_in_range (_constraints st) v) = true ->
  (latency (_device st) < fuel)%nat ->
  exists st' : Driver,
    cw_frequency_setter fuel v st = Some (Ret tt, st')
    /\ module_state st' = idle
    /\ _constraints st' = _constraints st
    /\ _scan_power st' = _scan_power st
    /\ _scan_frequencies st' = _scan_frequencies st
    /\ freq_mode (_device st') = CW
    /\ latency (_device st') = latency (_device st)
    /\ _cw_frequency st' = reg_freq (_device st')
    /\ _cw_power st' = reg_pow (_device st')
    /\ written (_device st') =
         written (_device st)
         ++ match freq_mode (_device st) with
            | CW => []
            | SWEEP => [FREQ_MODE CW; WAI]
            end
         ++ [FREQ v; WAI; POW (_cw_power st); WAI].
Proof.
  intros Hi Hr Hf. unfold cw_frequency_setter. run_setter.
  rewrite Hi. cbn [is_idle negb]. run_setter. rewrite Hr. cbn [assert_].
  run_setter.
  destruct (freq_mode (_device st)) eqn:Hm; cbn [negb]; run_setter;
    unfold modify; eexists; (split; [reflexivity|]);
    repeat split; try reflexivity; try exact Hm; try exact Hi;
    cbn; repeat rewrite <- app_assoc; reflexivity.
Qed.

Lemma cw_power_setter_run (fuel : nat) (st : Driver) (v : float) :
  module_state st = idle ->
  fst (power_in_range (_constraints st) v) = true ->
  (latency (_device st) < fuel)%nat ->
  exists st' : Driver,
    cw_power_setter fuel v st = Some (Ret tt, st')
    /\ module_state st' = idle
    /\ _constraints st' = _constraints st
    /\ _scan_power st' = _scan_power st
    /\ _scan_frequencies st' = _scan_frequencies st
    /\ freq_mode (_device st') = CW
    /\ latency (_device st') = latency (_device st)
    /\ _cw_frequency st' = reg_freq (_device st')
    /\ _cw_power st' = reg_pow (_device st')
    /\ written (_device st') =
         written (_device st)
         ++ match freq_mode (_device st) with
            | CW => []
            | SWEEP => [FREQ_MODE CW; WAI]
            end
         ++ [FREQ (_cw_frequency st); WAI; POW v; WAI].
Proof.
  intros Hi Hr Hf. unfold cw_power_setter. run_setter.
  rewrite Hi. cbn [is_idle negb]. run_setter. rewrite Hr. cbn [assert_].
  run_setter.
  destruct (freq_mode (_device st)) eqn:Hm; cbn [negb]; run_setter;
    unfold modify; eexists; (split; [reflexivity|]);
    repeat split; try reflexivity; try exact Hm; try exact Hi;
    cbn; repeat rewrite <- app_assoc; reflexivity.
Qed.

(** X1.  On an idle module and for a frequency inside the range, the
    [cw_frequency] setter puts the instrument in CW mode (sending the mode
    switch only if needed), writes the new frequency and then the cached
    power, each confirmed, and refreshes both cached values from the
    instrument: afterwards the cached CW pair is what the instrument
    reports.  The module stays idle and the scan setpoints are untouched. *)
Theorem cw_frequency_setter_refreshes_cache :
  forall (fuel : nat) (st : Driver) (v : float),
    module_state st = idle ->
    fst (frequency_in_range (_constraints st) v) = true ->
    (latency (_device st) < fuel)%nat ->
    exists st' : Driver,
      cw_frequency_setter fuel v st = Some (Ret tt, st')
      /\ module_state st' = idle
      /\ freq_mode (_device st') = CW
      /\ _cw_frequency st' = reg_freq (_device st')
      /\ _cw_power st' = reg_pow (_device st')
      /\ _scan_power st' = _scan_power st
      /\ _scan_frequencies st' = _scan_frequencies st
      /\ written (_device st') =
           written (_device st)
           ++ match freq_mode (_device st) with
              | CW => []
              | SWEEP => [FREQ_MODE CW; WAI]
              end
           ++ [FREQ v; WAI; POW (_cw_power st); WAI].
Proof.
  intros fuel st v Hi Hr Hf.
  destruct (cw_frequency_setter_run fuel st v Hi Hr Hf)
    as [st' [H1 [H2 [_ [H4 [H5 [H6 [_ [H8 [H9 H10]]]]]]]]]].
  exists st'. repeat split; assumption.
Qed.

Lemma cw_frequency_setter_refreshes_cache_witness :
  exists st' : Driver,
    cw_frequency_setter 3 (F64.of_Z 2000000000) bench_driver = Some (Ret tt, st')
    /\ module_state st' = idle
    /\ freq_mode (_device st') = CW
    /\ _cw_frequency st' = reg_freq (_device st')
    /\ _cw_power st' = reg_pow (_device st')
    /\ _scan_power st' = _scan_power bench_driver
    /\ _scan_frequencies st' = _scan_frequencies bench_driver
    /\ written (_device st') =
         written (_device bench_driver)
         ++ match freq_mode (_device bench_driver) with
            | CW => []
            | SWEEP => [FREQ_MODE CW; WAI]
            end
         ++ [FREQ (F64.of_Z 2000000000); WAI; POW (_cw_power bench_driver); WAI].
Proof.
  apply (cw_frequency_setter_refreshes_cache 3%nat bench_driver (F64.of_Z 2000000000)).
  - reflexivity.
  - vm_compute. reflexivity.
  - simpl. lia.
Defined.

(** X2.  The [cw_power] setter, symmetrically: on an idle module and for a
    power inside the range it writes the cached frequency and then the new
    power, and refreshes the cached pair from the instrument. *)
Theorem cw_power_setter_refreshes_cache :
  forall (fuel : nat) (st : Driver) (v : float),
    module_state st = idle ->
    fst (power_in_range (_constraints st) v) = true ->
    (latency (_device st) < fuel)%nat ->
    exists st' : Driver,
      cw_power_setter fuel v st = Some (Ret tt, st')
      /\ module_state st' = idle
      /\ freq_mode (_device st') = CW
      /\ _cw_frequency st' = reg_freq (_device st')
      /\ _cw_power st' = reg_pow (_device st')
      /\ _scan_power st' = _scan_power st
      /\ _scan_frequencies st' = _scan_frequencies st
      /\ written (_device st') =
           written (_device st)
           ++ match freq_mode (_device st) with
              | CW => []
              | SWEEP => [FREQ_MODE CW; WAI]
              end
           ++ [FREQ (_cw_frequency st); WAI; POW v; WAI].
Proof.
  intros fuel st v Hi Hr Hf.
  destruct (cw_power_setter_run fuel st v Hi Hr Hf)
    as [st' [H1 [H2 [_ [H4 [H5 [H6 [_ [H8 [H9 H10]]]]]]]]]].
  exists st'. repeat split; assumption.
Qed.

Lemma cw_power_setter_refreshes_cache_witness :
  exists st' : Driver,
    cw_power_setter 3 (F64.of_Z (-10)) bench_driver = Some (Ret tt, st')
    /\ module_state st' = idle
    /\ freq_mode (_device st') = CW
    /\ _cw_frequency st' = reg_freq (_device st')
    /\ _cw_power st' = reg_pow (_device st')
    /\ _scan_power st' = _scan_power bench_driver
    /\ _scan_frequencies st' = _scan_frequencies bench_driver
    /\ written (_device st') =
         written (_device bench_driver)
         ++ match freq_mode (_device bench_driver) with
            | CW => []
            | SWEEP => [FREQ_MODE CW; WAI]
            end
         ++ [FREQ (_cw_frequency bench_driver); WAI; POW (F64.of_Z (-10)); WAI].
Proof.
  apply (cw_power_setter_refreshes_cache 3%nat bench_driver (F64.of_Z (-10))).
  - reflexivity.
  - vm_compute. reflexivity.
  - simpl. lia.
Defined.

(** [cw_on] from idle with the instrument already in CW mode: the registers
    and the cache are left alone. *)
Lemma cw_on_idle_in_cw_mode (fuel : nat) (st : Driver) :
  module_state st = idle ->
  freq_mode (_device st) = CW ->
  (latency (_device st) < fuel)%nat ->
  exists st' : Driver,
    cw_on fuel st = Some (Ret tt, st')
    /\ module_state st' = locked
    /\ freq_mode (_device st') = CW
    /\ outp_reported (_device st') = true
    /\ reg_freq (_device st') = reg_freq (_device st)
    /\ reg_pow (_device st') = reg_pow (_device st)
    /\ _cw_frequency st' = _cw_frequency st
    /\ _cw_power st' = _cw_power st
    /\ written (_device st') = written (_device st) ++ [OUTP_STAT true; WAI].
Proof.
  intros Hi Hm Hf.
  unfold cw_on. run_method. rewrite Hi. cbn [is_idle negb]. run_method.
  rewrite Hm. cbn [negb]. run_method.
  match goal with
  | |- context [bind (dev (wait_outp_on fuel)) ?k ?s] =>
      destruct (bind_dev_wait_outp_on fuel k s eq_refl Hf) as [j [Hj Hr]]
  end.
  rewrite Hj. eexists. split; [reflexivity|].
  repeat split; try reflexivity; try exact Hm; try exact Hr.
  cbn. rewrite <- app_assoc. reflexivity.
Qed.

(** X3.  Setting the CW frequency and power and then switching on: when
    [cw_on] returns, the module is locked, the output reads "on", the
    instrument is in CW mode and its frequency and power registers hold the
    cached CW pair; [cw_on] itself only had to send the output switch. *)
Theorem set_cw_then_cw_on_outputs_cached_pair :
  forall (fuel : nat) (st : Driver) (f p : float),
    module_state st = idle ->
    fst (frequency_in_range (_constraints st) f) = true ->
    fst (power_in_range (_constraints st) p) = true ->
    (latency (_device st) < fuel)%nat ->
    exists st1 st' : Driver,
      (cw_frequency_setter fuel f ;; cw_power_setter fuel p) st = Some (Ret tt, st1)
      /\ cw_on fuel st1 = Some (Ret tt, st')
      /\ module_state st' = locked
      /\ outp_reported (_device st') = true
      /\ freq_mode (_device st') = CW
      /\ reg_freq (_device st') = _cw_frequency st'
      /\ reg_pow (_device st') = _cw_power st'
      /\ written (_device st') = written (_device st1) ++ [OUTP_STAT true; WAI].
Proof.
  intros fuel st f p Hi Hfr Hpr Hf.
  destruct (cw_frequency_setter_run fuel st f Hi Hfr Hf)
    as [s1 [E1 [I1 [C1 [_ [_ [_ [L1 _]]]]]]]].
  assert (Hpr1 : fst (power_in_range (_constraints s1) p) = true)
    by (rewrite C1; exact Hpr).
  assert (Hf1 : (latency (_device s1) < fuel)%nat) by (rewrite L1; exact Hf).
  destruct (cw_power_setter_run fuel s1 p I1 Hpr1 Hf1)
    as [s2 [E2 [I2 [_ [_ [_ [M2 [L2 [F2 [P2 _]]]]]]]]]].
  assert (Hf2 : (latency (_device s2) < fuel)%nat) by (rewrite L2; exact Hf1).
  destruct (cw_on_idle_in_cw_mode fuel s2 I2 M2 Hf2)
    as [s3 [E3 [K3 [M3 [O3 [RF [RP [CF [CP W3]]]]]]]]].
  exists s2, s3. repeat split; try assumption.
  - unfold bind at 1. rewrite E1. exact E2.
  - rewrite RF, CF. symmetry; exact F2.
  - rewrite RP, CP. symmetry; exact P2.
Qed.

Lemma set_cw_then_cw_on_outputs_cached_pair_witness :
  exists st1 st' : Driver,
    (cw_frequency_setter 3 (F64.of_Z 2000000000) ;;
     cw_power_setter 3 (F64.of_Z (-10))) bench_driver = Some (Ret tt, st1)
    /\ cw_on 3 st1 = Some (Ret tt, st')
    /\ module_state st' = locked
    /\ outp_reported (_device st') = true
    /\ freq_mode (_device st') = CW
    /\ reg_freq (_device st') = _cw_frequency st'
    /\ reg_pow (_device st') = _cw_power st'
    /\ written (_device st') = written (_device st1) ++ [OUTP_STAT true; WAI].
Proof.
  apply (set_cw_then_cw_on_outputs_cached_pair
           3%nat bench_driver (F64.of_Z 2000000000) (F64.of_Z (-10))).
  - reflexivity.
  - vm_compute. reflexivity.
  - vm_compute. reflexivity.
  - simpl. lia.
Defined.

(** ** Scan power, trigger edge, scanning flag *)

(** X4.  On an idle module and for a power inside the range, the
    [scan_power] setter stores the value.  With no scan frequencies stored
    it does nothing else: the instrument is not contacted.  With a triple
    stored it programs the whole sweep again, now with the new power, and
    keeps the triple. *)
Theorem scan_power_setter_idle :
  forall (fuel : nat) (st : Driver) (v : float),
    module_state st = idle ->
    fst (power_in_range (_constraints st) v) = true ->
    (latency (_device st) < fuel)%nat ->
    (_scan_frequencies st = None ->
       scan_power_setter fuel v st = Some (Ret tt, set_scan_power v st))
    /\ (forall start stop points : float,
           _scan_frequencies st = Some [start; stop; points] ->
           exists st' : Driver,
             scan_power_setter fuel v st = Some (Ret tt, st')
             /\ module_state st' = idle
             /\ _scan_power st' = v
             /\ _scan_frequencies st' = Some [start; stop; points]
             /\ _cw_frequency st' = _cw_frequency st
             /\ _cw_power st' = _cw_power st
             /\ freq_mode (_device st') = SWEEP
             /\ written (_device st') =
                  written (_device st)
                  ++ match freq_mode (_device st) with
                     | CW => [FREQ_MODE SWEEP; WAI]
                     | SWEEP => []
                     end
                  ++ [SWE_MODE_STEP; SWE_SPAC_LIN; WAI;
                      FREQ_START (F64.sub start (sweep_step (start, stop, points)));
                      FREQ_STOP stop;
                      SWE_STEP_LIN (sweep_step (start, stop, points));
                      WAI; POW v; WAI; TRIG_FSW_SOUR_EXT; WAI]).
Proof.
  intros fuel st v Hi Hr Hf. split.
  - intros Hn. unfold scan_power_setter. run_method.
    rewrite Hi. cbn [is_idle negb]. run_method. rewrite Hr. cbn [assert_].
    run_method. rewrite Hn. reflexivity.
  - intros start stop points Hs.
    destruct (write_sweep_programs fuel (set_scan_power v st) start stop points Hs Hf)
      as [st' [E [Hms [Hsp [Hm Hw]]]]].
    exists st'. split.
    + unfold scan_power_setter. run_method.
      rewrite Hi. cbn [is_idle negb]. run_method. rewrite Hr. cbn [assert_].
      run_method. rewrite Hs. exact E.
    + unfold setpoints in Hsp. cbn in Hsp. inversion Hsp as [[Hcf Hcp Hp Hsf]].
      repeat split; try assumption.
      * rewrite Hms. exact Hi.
      * rewrite Hsf. exact Hs.
      * rewrite Hp. exact Hw.
Qed.

Lemma scan_power_setter_idle_witness :
  (_scan_frequencies bench_driver = None ->
     scan_power_setter 3 (F64.of_Z (-10)) bench_driver
       = Some (Ret tt, set_scan_power (F64.of_Z (-10)) bench_driver))
  /\ (forall start stop points : float,
         _scan_frequencies bench_driver = Some [start; stop; points] ->
         exists st' : Driver,
           scan_power_setter 3 (F64.of_Z (-10)) bench_driver = Some (Ret tt, st')
           /\ module_state st' = idle
           /\ _scan_power st' = F64.of_Z (-10)
           /\ _scan_frequencies st' = Some [start; stop; points]
           /\ _cw_frequency st' = _cw_frequency bench_driver
           /\ _cw_power st' = _cw_power bench_driver
           /\ freq_mode (_device st') = SWEEP
           /\ written (_device st') =
                written (_device bench_driver)
                ++ match freq_mode (_device bench_driver) with
                   | CW => [FREQ_MODE SWEEP; WAI]
                   | SWEEP => []
                   end
                ++ [SWE_MODE_STEP; SWE_SPAC_LIN; WAI;
                    FREQ_START (F64.sub start (sweep_step (start, stop, points)));
                    FREQ_STOP stop;
                    SWE_STEP_LIN (sweep_step (start, stop, points));
                    WAI; POW (F64.of_Z (-10)); WAI; TRIG_FSW_SOUR_EXT; WAI]).
Proof.
  apply (scan_power_setter_idle 3%nat bench_driver (F64.of_Z (-10))).
  - reflexivity.
  - vm_compute. reflexivity.
  - simpl. lia.
Defined.

Lemma bind_dev_query_trig_slope {B : Type} (k : Slope -> M Driver B) (s : Driver) :
  bind (dev query_trig_slope) k s =
    k (trig_slope (_device s)) (set_device (_device s) s).
Proof. reflexivity. Qed.

Lemma set_device_same (s : Driver) : set_device (_device s) s = s.
Proof. destruct s; reflexivity. Qed.

(** X5.  Trigger edge round trip.  On an idle module the setter sends
    [:TRIG1:SLOP NEG] for [FALLING] and [:TRIG1:SLOP POS] for [RISING],
    confirmed, and the getter then returns the edge that was set.  Neither
    touches the cached setpoints or the lock. *)
Theorem trigger_edge_round_trip :
  forall (fuel : nat) (st : Driver) (e : TriggerEdge),
    module_state st = idle ->
    (latency (_device st) < fuel)%nat ->
    exists st' : Driver,
      trigger_edge_setter fuel e st = Some (Ret tt, st')
      /\ trigger_edge st' = Some (Ret e, st')
      /\ module_state st' = idle
      /\ setpoints st' = setpoints st
      /\ written (_device st') =
           written (_device st)
           ++ [TRIG1_SLOP (match e with FALLING => NEG | RISING => POS end); WAI].
Proof.
  intros fuel st e Hi Hf.
  unfold trigger_edge_setter. run_method. rewrite Hi. cbn [is_idle negb].
  rewrite dev_command_wait by assumption.
  eexists. split; [reflexivity|]. split.
  - unfold trigger_edge. rewrite bind_dev_query_trig_slope.
    rewrite set_device_same. unfold ret. destruct e; reflexivity.
  - repeat split; try assumption.
    destruct e; cbn; rewrite <- app_assoc; reflexivity.
Qed.

Lemma trigger_edge_round_trip_witness :
  exists st' : Driver,
    trigger_edge_setter 3 FALLING bench_driver = Some (Ret tt, st')
    /\ trigger_edge st' = Some (Ret FALLING, st')
    /\ module_state st' = idle
    /\ setpoints st' = setpoints bench_driver
    /\ written (_device st') =
         written (_device bench_driver) ++ [TRIG1_SLOP NEG; WAI].
Proof.
  apply (trigger_edge_round_trip 3%nat bench_driver FALLING).
  - reflexivity.
  - simpl. lia.
Defined.

Lemma is_scanning_value (st : Driver) :
  is_scanning st =
    Some (Ret (match module_state st, freq_mode (_device st) with
               | locked, SWEEP => true
               | _, _ => false
               end), st).
Proof.
  unfold is_scanning. rewrite bind_gets.
  destruct (module_state st); cbn [is_idle negb]; [reflexivity|].
  rewrite bind_dev_in_cw_mode, set_device_same.
  destruct (freq_mode (_device st)); reflexivity.
Qed.

Lemma start_scan_idle_latency (fuel : nat) (st : Driver) (v : list float) :
  module_state st = idle ->
  _scan_frequencies st = Some v ->
  (latency (_device st) < fuel)%nat ->
  exists st' : Driver,
    start_scan fuel st = Some (Ret tt, st')
    /\ module_state st' = locked
    /\ freq_mode (_device st') = SWEEP
    /\ latency (_device st') = latency (_device st)
    /\ _scan_frequencies st' = Some v.
Proof.
  intros Hi Hs Hf.
  unfold start_scan. run_method. rewrite Hi. cbn [is_idle negb].
  run_method. rewrite Hs. cbn [assert_]. run_method.
  destruct (freq_mode (_device st)) eqn:Hm; run_method;
    match goal with
    | |- context [bind (dev (wait_outp_on fuel)) ?k ?s] =>
        destruct (bind_dev_wait_outp_on fuel k s eq_refl Hf) as [j [Hj Hr]]
    end;
    rewrite Hj; eexists; (split; [reflexivity|]);
    repeat split; try reflexivity; try exact Hm; exact Hs.
Qed.

(** X6.  The scanning flag follows the operations.  It is false on an idle
    module whatever mode the instrument is in; after a [start_scan] that
    returned it is true; after a [cw_on] that returned it is false; and
    after [off] it is false again.  Reading it changes nothing. *)
Theorem is_scanning_follows_operations :
  forall (fuel : nat) (st : Driver),
    module_state st = idle ->
    (latency (_device st) < fuel)%nat ->
    is_scanning st = Some (Ret false, st)
    /\ (forall v : list float,
           _scan_frequencies st = Some v ->
           exists st1 st2 : Driver,
             start_scan fuel st = Some (Ret tt, st1)
             /\ is_scanning st1 = Some (Ret true, st1)
             /\ off fuel st1 = Some (Ret tt, st2)
             /\ is_scanning st2 = Some (Ret false, st2))
    /\ (exists st1 : Driver,
           cw_on fuel st = Some (Ret tt, st1)
           /\ is_scanning st1 = Some (Ret false, st1)).
Proof.
  intros fuel st Hi Hf. split; [|split].
  - rewrite is_scanning_value, Hi. reflexivity.
  - intros v Hv.
    destruct (start_scan_idle_latency fuel st v Hi Hv Hf)
      as [st1 [E1 [L1 [M1 [La1 _]]]]].
    assert (Hf1 : (latency (_device st1) < fuel)%nat) by (rewrite La1; exact Hf).
    destruct (off_locked fuel st1 L1 Hf1) as [st2 [E2 [I2 _]]].
    exists st1, st2. repeat split; try assumption.
    + rewrite is_scanning_value, L1, M1. reflexivity.
    + rewrite is_scanning_value, I2. reflexivity.
  - destruct (cw_on_idle fuel st Hi Hf) as [st1 [E1 [L1 [_ [_ [_ [M1 _]]]]]]].
    exists st1. split; [exact E1|].
    rewrite is_scanning_value, L1, M1. reflexivity.
Qed.

Lemma is_scanning_follows_operations_witness :
  is_scanning bench_driver = Some (Ret false, bench_driver)
  /\ (forall v : list float,
         _scan_frequencies bench_driver = Some v ->
         exists st1 st2 : Driver,
           start_scan 3 bench_driver = Some (Ret tt, st1)
           /\ is_scanning st1 = Some (Ret true, st1)
           /\ off 3 st1 = Some (Ret tt, st2)
           /\ is_scanning st2 = Some (Ret false, st2))
  /\ (exists st1 : Driver,
         cw_on 3 bench_driver = Some (Ret tt, st1)
         /\ is_scanning st1 = Some (Ret false, st1)).
Proof.
  apply (is_scanning_follows_operations 3%nat bench_driver).
  - reflexivity.
  - simpl. lia.
Defined.

(** ** Switching off *)

(** X7.  [off] never raises.  Whenever it returns, the module is idle and
    the cached setpoints are as before; on a module that was idle already it
    changes nothing at all; and a second [off] is then a no-op, whatever the
    polling budget. *)
Theorem off_ends_idle_and_is_idempotent :
  forall (fuel fuel' : nat) (st st' : Driver) (r : outcome unit),
    off fuel st = Some (r, st') ->
    r = Ret tt
    /\ module_state st' = idle
    /\ setpoints st' = setpoints st
    /\ (module_state st = idle -> st' = st)
    /\ off fuel' st' = Some (Ret tt, st').
Proof.
  intros fuel fuel' st st' r H.
  assert (Hres : r = Ret tt /\ module_state st' = idle
                 /\ setpoints st' = setpoints st
                 /\ (module_state st = idle -> st' = st)).
  { destruct (module_state st) eqn:Hs.
    - rewrite (off_idle fuel st Hs) in H. inversion H; subst.
      repeat split; try assumption; reflexivity.
    - destruct (off_locked_frame fuel st st' r Hs H) as [Hr [Hi Hsp]].
      repeat split; try assumption. intros E; discriminate E. }
  destruct Hres as [Hr [Hi [Hsp Hid]]].
  repeat split; try assumption.
  apply off_idle. exact Hi.
Qed.

Lemma off_ends_idle_and_is_idempotent_witness :
  Ret tt = Ret tt
  /\ module_state bench_driver = idle
  /\ setpoints bench_driver = setpoints bench_driver
  /\ (module_state bench_driver = idle -> bench_driver = bench_driver)
  /\ off 0 bench_driver = Some (Ret tt, bench_driver).
Proof.
  apply (off_ends_idle_and_is_idempotent 3%nat 0%nat bench_driver bench_driver (Ret tt)).
  reflexivity.
Defined.

(** ** Frames *)

Section Frames.

Context {S : Type} (R : S -> S -> Prop).
Hypothesis R_refl : forall s : S, R s s.
Hypothesis R_trans : forall s1 s2 s3 : S, R s1 s2 -> R s2 s3 -> R s1 s3.

Lemma preserves_ret {A : Type} (a : A) : preserves R (@ret S A a).
Proof. intros s r s' H. inversion H; subst. apply R_refl. Qed.

Lemma preserves_raise {A : Type} (e : exn) : preserves R (@raise S A e).
Proof. intros s r s' H. inversion H; subst. apply R_refl. Qed.

Lemma preserves_gets {A : Type} (f : S -> A) : preserves R (gets f).
Proof. intros s r s' H. inversion H; subst. apply R_refl. Qed.

Lemma preserves_assert (b : bool) : preserves R (@assert_ S b).
Proof. destruct b; [apply preserves_ret | apply preserves_raise]. Qed.

Lemma preserves_modify (f : S -> S) :
  (forall s : S, R s (f s)) -> preserves R (modify f).
Proof. intros Hf s r s' H. inversion H; subst. apply Hf. Qed.

Lemma preserves_bind {A B : Type} (m : M S A) (k : A -> M S B) :
  preserves R m -> (forall a : A, preserves R (k a)) -> preserves R (bind m k).
Proof.
  intros Hm Hk s r s' H. unfold bind in H.
  destruct (m s) as [[[a|e] s1]|] eqn:E; try discriminate H.
  - apply (R_trans s s1 s'); [apply (Hm s _ s1 E) | apply (Hk a s1 r s' H)].
  - inversion H; subst. apply (Hm s _ s' E).
Qed.

End Frames.

Lemma no_raise_ret {S A : Type} (a : A) : no_raise (@ret S A a).
Proof. intros s r s' H. inversion H; subst. exists a; reflexivity. Qed.

Lemma no_raise_gets {S A : Type} (f : S -> A) : no_raise (gets f).
Proof. intros s r s' H. inversion H; subst. eexists; reflexivity. Qed.

Lemma no_raise_modify {S : Type} (f : S -> S) : no_raise (modify f).
Proof. intros s r s' H. inversion H; subst. eexists; reflexivity. Qed.

Lemma no_raise_bind {S A B : Type} (m : M S A) (k : A -> M S B) :
  no_raise m -> (forall a : A, no_raise (k a)) -> no_raise (bind m k).
Proof.
  intros Hm Hk s r s' H. unfold bind in H.
  destruct (m s) as [[[a|e] s1]|] eqn:E; try discriminate H.
  - apply (Hk a s1 r s' H).
  - destruct (Hm s _ s1 E) as [a Ha]. discriminate Ha.
Qed.

Lemma no_raise_dev {A : Type} (m : M Device A) : no_raise m -> no_raise (dev m).
Proof.
  intros Hm s r s' H. unfold dev in H.
  destruct (m (_device s)) as [[r0 d]|] eqn:E; try discriminate H.
  inversion H; subst. apply (Hm _ _ _ E).
Qed.

Lemma no_raise_wait_opc (fuel : nat) : no_raise (wait_opc fuel).
Proof.
  induction fuel as [|fuel IH]; intros d r d' H; [discriminate H|].
  cbn in H. unfold bind, query_opc, dev_query_opc in H.
  destruct (busy d); cbn in H.
  - inversion H; subst. exists tt; reflexivity.
  - apply IH in H. exact H.
Qed.

Lemma no_raise_wait_outp_on (fuel : nat) : no_raise (wait_outp_on fuel).
Proof.
  induction fuel as [|fuel IH]; intros d r d' H; [discriminate H|].
  unfold wait_outp_on in H; fold wait_outp_on in H.
  unfold bind, query_outp_stat in H.
  destruct (dev_query_outp d) as [z d1].
  destruct (z =? 0).
  - apply IH in H. exact H.
  - inversion H; subst. exists tt; reflexivity.
Qed.

Lemma no_raise_wait_outp_off (fuel : nat) : no_raise (wait_outp_off fuel).
Proof.
  intros d r d' H. apply wait_outp_off_frame in H.
  destruct H as [-> _]. exists tt; reflexivity.
Qed.

Lemma no_raise_command_wait (fuel : nat) (c : Command) : no_raise (_command_wait fuel c).
Proof.
  unfold _command_wait.
  apply no_raise_bind; [apply no_raise_modify | intros _].
  apply no_raise_bind; [apply no_raise_modify | intros _].
  apply no_raise_wait_opc.
Qed.

Lemma same_refl {X : Type} (f : Driver -> X) (s : Driver) : same f s s.
Proof. reflexivity. Qed.

Lemma same_trans {X : Type} (f : Driver -> X) (s1 s2 s3 : Driver) :
  same f s1 s2 -> same f s2 s3 -> same f s1 s3.
Proof. unfold same. intros H1 H2. rewrite H2. exact H1. Qed.

Lemma preserves_dev {A X : Type} (f : Driver -> X) (m : M Device A) :
  (forall (d : Device) (s : Driver), f (set_device d s) = f s) ->
  preserves (same f) (dev m).
Proof.
  intros Hf s r s' H. unfold dev in H.
  destruct (m (_device s)) as [[r0 d]|]; try discriminate H.
  inversion H; subst. apply Hf.
Qed.

Ltac frame_step :=
  lazymatch goal with
  | |- preserves _ (bind _ _) =>
      apply (preserves_bind _ (same_trans _)); [ | intros ? ]
  | |- preserves _ (ret _) => apply (preserves_ret _ (same_refl _))
  | |- preserves _ (raise _) => apply (preserves_raise _ (same_refl _))
  | |- preserves _ (gets _) => apply (preserves_gets _ (same_refl _))
  | |- preserves _ (assert_ _) => apply (preserves_assert _ (same_refl _))
  | |- preserves _ (modify _) => apply preserves_modify; intros ?; reflexivity
  | |- preserves _ (dev _) => apply preserves_dev; intros ? ?; reflexivity
  | |- preserves _ (if ?b then _ else _) => destruct b
  | |- preserves _ (match ?x with _ => _ end) => destruct x
  | |- preserves _ (let _ := _ in _) => cbv zeta
  | |- preserves _ (_write_sweep _) => unfold _write_sweep
  end.

Ltac frame_method :=
  cbn [run];
  unfold cw_power_setter, cw_frequency_setter, scan_power_setter,
    scan_frequencies_setter, scan_mode_setter, trigger_edge_setter,
    off, cw_on, start_scan, reset_scan;
  repeat frame_step.

(** X8.  The constraints built at activation and the stored model string
    are never changed afterwards: no public operation assigns them, whether
    it returns or raises. *)
Theorem constraints_never_mutated :
  forall (fuel : nat) (c : Call) (st st' : Driver) (r : outcome unit),
    run fuel c st = Some (r, st') ->
    _constraints st' = _constraints st /\ _model st' = _model st.
Proof.
  intros fuel c st st' r H.
  assert (P : preserves (same (fun s => (_constraints s, _model s))) (run fuel c))
    by (destruct c; frame_method).
  apply P in H. unfold same in H. inversion H. split; reflexivity.
Qed.

Lemma constraints_never_mutated_witness :
  _constraints (set_scan_frequencies None bench_driver) = _constraints bench_driver
  /\ _model (set_scan_frequencies None bench_driver) = _model bench_driver.
Proof.
  apply (constraints_never_mutated 3%nat (Set_scan_mode EQUIDISTANT_SWEEP)
           bench_driver (set_scan_frequencies None bench_driver) (Ret tt)).
  reflexivity.
Defined.

(** X9.  Who may change what.  The cached CW pair is changed by the two CW
    setters only; the scan power and the scan triple by the three scan
    setters only; the output lock by [off], [cw_on] and [start_scan] only.
    Every other public operation leaves them as they were, whether it
    returns or raises. *)
Theorem attributes_change_only_through_their_operations :
  forall (fuel : nat) (c : Call) (st st' : Driver) (r : outcome unit),
    run fuel c st = Some (r, st') ->
    match c with
    | Set_cw_power _ | Set_cw_frequency _ => True
    | _ => _cw_frequency st' = _cw_frequency st /\ _cw_power st' = _cw_power st
    end
    /\ match c with
       | Set_scan_power _ | Set_scan_frequencies _ | Set_scan_mode _ => True
       | _ => _scan_power st' = _scan_power st
              /\ _scan_frequencies st' = _scan_frequencies st
       end
    /\ match c with
       | Call_off | Call_cw_on | Call_start_scan => True
       | _ => module_state st' = module_state st
       end.
Proof.
  intros fuel c st st' r H. split; [|split].
  - destruct c; try exact I;
      match goal with
      | H : run ?f ?c ?s = _ |- _ =>
          assert (P : preserves (same (fun s => (_cw_frequency s, _cw_power s)))
                                (run f c)) by frame_method;
          apply P in H; unfold same in H; inversion H; split; reflexivity
      end.
  - destruct c; try exact I;
      match goal with
      | H : run ?f ?c ?s = _ |- _ =>
          assert (P : preserves (same (fun s => (_scan_power s, _scan_frequencies s)))
                                (run f c)) by frame_method;
          apply P in H; unfold same in H; inversion H; split; reflexivity
      end.
  - destruct c; try exact I;
      match goal with
      | H : run ?f ?c ?s = _ |- _ =>
          assert (P : preserves (same module_state) (run f c)) by frame_method;
          apply P in H; exact H
      end.
Qed.

Lemma attributes_change_only_through_their_operations_witness :
  (_cw_frequency (set_scan_frequencies None bench_driver) = _cw_frequency bench_driver
   /\ _cw_power (set_scan_frequencies None bench_driver) = _cw_power bench_driver)
  /\ True
  /\ module_state (set_scan_frequencies None bench_driver) = module_state bench_driver.
Proof.
  apply (attributes_change_only_through_their_operations
           3%nat (Set_scan_mode EQUIDISTANT_SWEEP)
           bench_driver (set_scan_frequencies None bench_driver) (Ret tt)).
  reflexivity.
Defined.

(** ** Errors have no side effect *)

Ltac no_raise_step :=
  lazymatch goal with
  | |- no_raise (bind _ _) => apply no_raise_bind; [ | intros ? ]
  | |- no_raise (ret _) => apply no_raise_ret
  | |- no_raise (gets _) => apply no_raise_gets
  | |- no_raise (modify _) => apply no_raise_modify
  | |- no_raise (dev _) => apply no_raise_dev
  | |- no_raise (write _) => apply no_raise_modify
  | |- no_raise _in_cw_mode => apply no_raise_gets
  | |- no_raise query_pow => apply no_raise_gets
  | |- no_raise query_freq => apply no_raise_gets
  | |- no_raise (_command_wait _ _) => apply no_raise_command_wait
  | |- no_raise (wait_outp_on _) => apply no_raise_wait_outp_on
  | |- no_raise (wait_outp_off _) => apply no_raise_wait_outp_off
  | |- no_raise (if ?b then _ else _) => destruct b
  end.

(** Contradiction from a run of a computation that cannot raise and yet
    ended in an exception. *)
Ltac absurd_raise H :=
  lazymatch type of H with
  | ?m ?s = Some (Raise _, _) =>
      let N := fresh "N" in
      let a := fresh "a" in
      let E := fresh "E" in
      assert (N : no_raise m) by (repeat no_raise_step);
      destruct (N s _ _ H) as [a E]; discriminate E
  end.

(** What [_write_sweep] can raise when a value is stored: nothing if it has
    three elements, [ValueError] from the unpacking otherwise. *)
Lemma write_sweep_raises (fuel : nat) (s s' : Driver) (e : exn) (v : list float) :
  _scan_frequencies s = Some v ->
  _write_sweep fuel s = Some (Raise e, s') ->
  e = ValueError /\ List.length v <> 3%nat.
Proof.
  intros Hv H. unfold _write_sweep in H.
  rewrite bind_dev_in_cw_mode, set_device_same in H.
  unfold bind at 1 in H.
  match type of H with
  | match ?m s with _ => _ end = _ => destruct (m s) as [[[[] | e0] s1]|] eqn:E1
  end; try discriminate H.
  - assert (Hs1 : _scan_frequencies s1 = Some v).
    { assert (P : preserves (same _scan_frequencies)
                    (if match freq_mode (_device s) with CW => true | SWEEP => false end
                     then dev (_command_wait fuel (FREQ_MODE SWEEP)) else ret tt))
        by (repeat frame_step).
      apply P in E1. unfold same in E1. rewrite E1. exact Hv. }
    rewrite bind_gets, Hs1 in H.
    destruct v as [|a [|b [|c [|d t]]]];
      try (inversion H; split; [reflexivity | cbn; lia]).
    cbv zeta in H. absurd_raise H.
  - absurd_raise E1.
Qed.

Ltac reject H := inversion H; subst; split; [auto | reflexivity].

Lemma rejects_cleanly_cw_power_setter (fuel : nat) (v : float) :
  rejects_cleanly (cw_power_setter fuel v).
Proof.
  intros s e s' H. unfold cw_power_setter in H. rewrite bind_gets in H.
  destruct (module_state s); cbn [is_idle negb] in H; [ | reject H ].
  rewrite bind_gets in H.
  destruct (fst (power_in_range (_constraints s) v)); cbn [assert_] in H;
    [ | reject H ].
  rewrite bind_ret in H. absurd_raise H.
Qed.

Lemma rejects_cleanly_cw_frequency_setter (fuel : nat) (v : float) :
  rejects_cleanly (cw_frequency_setter fuel v).
Proof.
  intros s e s' H. unfold cw_frequency_setter in H. rewrite bind_gets in H.
  destruct (module_state s); cbn [is_idle negb] in H; [ | reject H ].
  rewrite bind_gets in H.
  destruct (fst (frequency_in_range (_constraints s) v)); cbn [assert_] in H;
    [ | reject H ].
  rewrite bind_ret in H. absurd_raise H.
Qed.

Lemma rejects_cleanly_scan_mode_setter (m : SamplingOutputMode) :
  rejects_cleanly (scan_mode_setter m).
Proof.
  intros s e s' H. unfold scan_mode_setter in H. rewrite bind_gets in H.
  destruct (module_state s); cbn [is_idle negb] in H; [ | reject H ].
  rewrite bind_gets in H.
  destruct (mode_supported (_constraints s) m); cbn [assert_] in H;
    [ | reject H ].
  discriminate H.
Qed.

Lemma rejects_cleanly_trigger_edge_setter (fuel : nat) (v : TriggerEdge) :
  rejects_cleanly (trigger_edge_setter fuel v).
Proof.
  intros s e s' H. unfold trigger_edge_setter in H. rewrite bind_gets in H.
  destruct (module_state s); cbn [is_idle negb] in H; [ | reject H ].
  absurd_raise H.
Qed.

Lemma rejects_cleanly_off (fuel : nat) : rejects_cleanly (off fuel).
Proof.
  intros s e s' H. destruct (module_state s) eqn:Hs.
  - rewrite (off_idle fuel s Hs) in H. discriminate H.
  - destruct (off_locked_frame fuel s s' _ Hs H) as [E _]. discriminate E.
Qed.

Lemma rejects_cleanly_cw_on (fuel : nat) : rejects_cleanly (cw_on fuel).
Proof.
  intros s e s' H. unfold cw_on in H. rewrite bind_gets in H.
  destruct (module_state s); cbn [is_idle negb] in H.
  - absurd_raise H.
  - rewrite bind_dev_in_cw_mode, set_device_same in H.
    destruct (freq_mode (_device s)); [discriminate H | reject H].
Qed.

Lemma rejects_cleanly_start_scan (fuel : nat) : rejects_cleanly (start_scan fuel).
Proof.
  intros s e s' H. unfold start_scan in H. rewrite bind_gets in H.
  destruct (module_state s); cbn [is_idle negb] in H; [ | reject H ].
  rewrite bind_gets in H.
  destruct (_scan_frequencies s); cbn [assert_] in H; [ | reject H ].
  rewrite bind_ret in H. absurd_raise H.
Qed.

Lemma rejects_cleanly_reset_scan (fuel : nat) : rejects_cleanly (reset_scan fuel).
Proof.
  intros s e s' H. unfold reset_scan in H. rewrite bind_gets in H.
  destruct (module_state s); [discriminate H | reject H].
Qed.

(** The two setters that end in [_write_sweep]: rejected cleanly by their
    checks, or [ValueError]. *)
Lemma scan_power_setter_raises (fuel : nat) (v : float) (s s' : Driver) (e : exn) :
  scan_power_setter fuel v s = Some (Raise e, s') ->
  ((e = RuntimeError \/ e = AssertionError) /\ s' = s) \/ e = ValueError.
Proof.
  intros H. unfold scan_power_setter in H. rewrite bind_gets in H.
  destruct (module_state s); cbn [is_idle negb] in H; [ | left; reject H ].
  rewrite bind_gets in H.
  destruct (fst (power_in_range (_constraints s) v)); cbn [assert_] in H;
    [ | left; reject H ].
  rewrite bind_ret, bind_modify, bind_gets in H.
  destruct (_scan_frequencies (set_scan_power v s)) as [t|] eqn:Ht.
  - right. exact (proj1 (write_sweep_raises fuel _ s' e t Ht H)).
  - discriminate H.
Qed.

Lemma scan_frequencies_setter_raises (fuel : nat) (v : list float) (s s' : Driver)
      (e : exn) :
  scan_frequencies_setter fuel v s = Some (Raise e, s') ->
  ((e = RuntimeError \/ e = AssertionError) /\ s' = s) \/ e = ValueError.
Proof.
  intros H. unfold scan_frequencies_setter in H. rewrite bind_gets in H.
  destruct (module_state s); cbn [is_idle negb] in H; [ | left; reject H ].
  rewrite bind_gets in H.
  destruct (py_min v) as [lowest|]; [ | right; inversion H; reflexivity ].
  destruct (py_max v) as [highest|]; [ | right; inversion H; reflexivity ].
  match type of H with
  | bind (assert_ ?b) _ _ = _ => destruct b
  end; cbn [assert_] in H; [ | left; reject H ].
  rewrite bind_ret in H.
  match type of H with
  | bind (assert_ ?b) _ _ = _ => destruct b
  end; cbn [assert_] in H; [ | left; reject H ].
  rewrite bind_ret, bind_modify in H. right.
  exact (proj1 (write_sweep_raises fuel (set_scan_frequencies (Some v) s) s' e v
                  eq_refl H)).
Qed.

(** X10.  A public operation raises [RuntimeError], [AssertionError] or
    [ValueError], nothing else.  When it raises one of the first two it has
    done nothing: the driver state after the exception, instrument and
    command log included, is the state before the call.  [ValueError] comes
    only from the [scan_frequencies] and [scan_power] setters, where the
    unpacking in [_write_sweep] can fail after the value is stored. *)
Theorem rejected_calls_leave_state_unchanged :
  forall (fuel : nat) (c : Call) (st st' : Driver) (e : exn),
    run fuel c st = Some (Raise e, st') ->
    (e = RuntimeError \/ e = AssertionError \/ e = ValueError)
    /\ (e <> ValueError -> st' = st)
    /\ (e = ValueError ->
          match c with
          | Set_scan_frequencies _ | Set_scan_power _ => True
          | _ => False
          end).
Proof.
  intros fuel c st st' e H.
  assert (clean : forall m : M Driver unit,
             rejects_cleanly m -> m st = Some (Raise e, st') ->
             (e = RuntimeError \/ e = AssertionError \/ e = ValueError)
             /\ (e <> ValueError -> st' = st)
             /\ (e = ValueError -> False)).
  { intros m Hm Hr. destruct (Hm st e st' Hr) as [[->| ->] ->];
      repeat split; auto; intros E; discriminate E. }
  assert (sweep : ((e = RuntimeError \/ e = AssertionError) /\ st' = st)
                  \/ e = ValueError ->
                  (e = RuntimeError \/ e = AssertionError \/ e = ValueError)
                  /\ (e <> ValueError -> st' = st)
                  /\ (e = ValueError -> True)).
  { intros [[[->| ->] ->]| ->]; repeat split; auto.
    intros N; contradiction N; reflexivity. }
  destruct c; cbn [run] in H.
  - exact (clean _ (rejects_cleanly_cw_power_setter fuel value) H).
  - exact (clean _ (rejects_cleanly_cw_frequency_setter fuel value) H).
  - exact (sweep (scan_power_setter_raises fuel value st st' e H)).
  - exact (sweep (scan_frequencies_setter_raises fuel value st st' e H)).
  - exact (clean _ (rejects_cleanly_scan_mode_setter value) H).
  - exact (clean _ (rejects_cleanly_trigger_edge_setter fuel value) H).
  - exact (clean _ (rejects_cleanly_off fuel) H).
  - exact (clean _ (rejects_cleanly_cw_on fuel) H).
  - exact (clean _ (rejects_cleanly_start_scan fuel) H).
  - exact (clean _ (rejects_cleanly_reset_scan fuel) H).
Qed.

Lemma rejected_calls_leave_state_unchanged_witness :
  run 3 (Set_scan_power (F64.of_Z 40)) bench_programmed
    = Some (Raise AssertionError, bench_programmed)
  /\ (AssertionError = RuntimeError \/ AssertionError = AssertionError
      \/ AssertionError = ValueError)
  /\ (AssertionError <> ValueError -> bench_programmed = bench_programmed)
  /\ (AssertionError = ValueError -> True).
Proof.
  assert (H : run 3 (Set_scan_power (F64.of_Z 40)) bench_programmed
              = Some (Raise AssertionError, bench_programmed))
    by (vm_compute; reflexivity).
  split; [exact H|].
  exact (rejected_calls_leave_state_unchanged
           3%nat (Set_scan_power (F64.of_Z 40)) bench_programmed bench_programmed
           AssertionError H).
Defined.

(** ** The state activation leaves behind *)

Lemma SFcompare_antisym (x y : float) :
  SFcompare y x = match SFcompare x y with
                  | Some c => Some (CompOpp c)
                  | None => None
                  end.
Proof.
  destruct x as [sx|sx| |sx mx ex], y as [sy|sy| |sy my ey];
    try reflexivity;
    try (destruct sx; reflexivity); try (destruct sy; reflexivity);
    try (destruct sx, sy; reflexivity).
  destruct sx, sy; try reflexivity; cbn.
  - rewrite (Z.compare_antisym ex ey).
    destruct (ex ?= ey)%Z eqn:E; cbn; try reflexivity.
    rewrite (Pos.compare_cont_antisym mx my Eq). reflexivity.
  - rewrite (Z.compare_antisym ex ey).
    destruct (ex ?= ey)%Z eqn:E; cbn; try reflexivity.
    rewrite (Pos.compare_cont_antisym mx my Eq). reflexivity.
Qed.

Lemma ltb_asym (x y : float) : F64.ltb x y = true -> F64.ltb y x = false.
Proof.
  unfold F64.ltb, SFltb. rewrite (SFcompare_antisym x y).
  destruct (SFcompare x y) as [[| |]|]; intros H; try discriminate H; reflexivity.
Qed.

(** X11.  Activation leaves a consistent idle module.  For every configured
    [max_power] and either model family, the module is idle with no scan
    triple, the upper frequency limit is 3.2 GHz for an SMB100A and 6 GHz
    otherwise, and the defaults installed for the CW power, the scan power
    (both the lower power limit) and the CW frequency (2.87 GHz) pass the
    range checks of the constraints just built.  A [start_scan] at this
    point raises [AssertionError] without touching anything. *)
Theorem activation_defaults_pass_the_checks :
  forall (cfg : Config) (name : string) (fuel fuel' : nat) (d : Device),
    (latency d < fuel)%nat ->
    exists st : Driver,
      on_activate cfg (Some name) fuel d = Some (Ret st)
      /\ module_state st = idle
      /\ _scan_frequencies st = None
      /\ frequency_limits (_constraints st) =
           (F64.of_Z 9000,
            if String.eqb name "SMB100A"
            then F64.of_Z 3200000000 else F64.of_Z 6000000000)
      /\ fst (power_in_range (_constraints st) (_cw_power st)) = true
      /\ fst (power_in_range (_constraints st) (_scan_power st)) = true
      /\ fst (frequency_in_range (_constraints st) (_cw_frequency st)) = true
      /\ start_scan fuel' st = Some (Raise AssertionError, st).
Proof.
  intros cfg name fuel fuel' d Hf.
  eexists. split; [apply (on_activate_runs cfg fuel d name Hf)|].
  assert (Hp : fst (in_range hw_min_power hw_min_power
                      match _max_power cfg with
                      | None => hw_max_power
                      | Some mp => py_max2 hw_min_power mp
                      end) = true).
  { unfold in_range.
    change (F64.ltb hw_min_power hw_min_power) with false. cbv iota.
    destruct (_max_power cfg) as [mp|]; [|reflexivity].
    unfold py_max2. destruct (F64.ltb hw_min_power mp) eqn:Hlt.
    - rewrite (ltb_asym _ _ Hlt). reflexivity.
    - reflexivity. }
  split; [reflexivity|]. split; [reflexivity|]. split.
  { cbn [_constraints frequency_limits].
    destruct (String.eqb name "SMB100A"); reflexivity. }
  split; [exact Hp|]. split; [exact Hp|]. split.
  - unfold frequency_in_range. cbn [_constraints frequency_limits _cw_frequency].
    destruct (String.eqb name "SMB100A"); reflexivity.
  - apply start_scan_idle_unset; reflexivity.
Qed.

Lemma activation_defaults_pass_the_checks_witness :
  exists st : Driver,
    on_activate (mkConfig "GPIB0::12::INSTR" 10 (Some (F64.of_Z (-200))))
                (Some "SMB100A"%string) 3 bench_device = Some (Ret st)
    /\ module_state st = idle
    /\ _scan_frequencies st = None
    /\ frequency_limits (_constraints st) =
         (F64.of_Z 9000,
          if String.eqb "SMB100A" "SMB100A"
          then F64.of_Z 3200000000 else F64.of_Z 6000000000)
    /\ fst (power_in_range (_constraints st) (_cw_power st)) = true
    /\ fst (power_in_range (_constraints st) (_scan_power st)) = true
    /\ fst (frequency_in_range (_constraints st) (_cw_frequency st)) = true
    /\ start_scan 0 st = Some (Raise AssertionError, st).
Proof.
  apply (activation_defaults_pass_the_checks
           (mkConfig "GPIB0::12::INSTR" 10 (Some (F64.of_Z (-200))))
           "SMB100A"%string 3%nat 0%nat bench_device).
  simpl. lia.
Defined.

(** ** Setting up and starting a scan *)

(** X12.  Re-selecting the scan mode invalidates the scan.  On an idle
    module, once [scan_mode] has been set to a supported mode, [start_scan]
    raises [AssertionError], whatever triple was stored before; the only
    change is that the triple is gone. *)
Theorem scan_mode_then_start_scan_fails :
  forall (fuel : nat) (st : Driver) (m : SamplingOutputMode),
    module_state st = idle ->
    mode_supported (_constraints st) m = true ->
    (scan_mode_setter m ;; start_scan fuel) st
      = Some (Raise AssertionError, set_scan_frequencies None st).
Proof.
  intros fuel st m Hi Hm.
  unfold scan_mode_setter. run_method. rewrite Hi. cbn [is_idle negb].
  run_method. rewrite Hm. cbn [assert_]. run_method.
  apply start_scan_idle_unset; [exact Hi | reflexivity].
Qed.

Lemma scan_mode_then_start_scan_fails_witness :
  (scan_mode_setter EQUIDISTANT_SWEEP ;; start_scan 3)
    (set_scan_frequencies (Some (seq3 bench_sweep)) bench_driver)
  = Some (Raise AssertionError,
          set_scan_frequencies None
            (set_scan_frequencies (Some (seq3 bench_sweep)) bench_driver)).
Proof.
  apply (scan_mode_then_start_scan_fails
           3%nat (set_scan_frequencies (Some (seq3 bench_sweep)) bench_driver)
           EQUIDISTANT_SWEEP).
  - reflexivity.
  - reflexivity.
Defined.

Lemma write_sweep_run (fuel : nat) (st : Driver) (start stop points : float) :
  _scan_frequencies st = Some [start; stop; points] ->
  (latency (_device st) < fuel)%nat ->
  exists st' : Driver,
    _write_sweep fuel st = Some (Ret tt, st')
    /\ module_state st' = module_state st
    /\ setpoints st' = setpoints st
    /\ latency (_device st') = latency (_device st)
    /\ freq_mode (_device st') = SWEEP
    /\ reg_pow (_device st') = _scan_power st
    /\ written (_device st') =
         written (_device st)
         ++ match freq_mode (_device st) with
            | CW => [FREQ_MODE SWEEP; WAI]
            | SWEEP => []
            end
         ++ [SWE_MODE_STEP; SWE_SPAC_LIN; WAI;
             FREQ_START (F64.sub start (sweep_step (start, stop, points)));
             FREQ_STOP stop;
             SWE_STEP_LIN (sweep_step (start, stop, points));
             WAI; POW (_scan_power st); WAI; TRIG_FSW_SOUR_EXT; WAI].
Proof.
  intros Hs Hf. unfold _write_sweep. run_method.
  destruct (freq_mode (_device st)) eqn:Hm; run_method;
    rewrite Hs; run_method;
    rewrite dev_command_wait by assumption;
    eexists; (split; [reflexivity|]);
    repeat split; try reflexivity; try exact Hm;
    cbn; repeat rewrite <- app_assoc; reflexivity.
Qed.

(** X13.  Setting up and starting a scan.  On an idle module, when the
    setter's own checks pass (the smallest and the largest of the three
    numbers inside the frequency range, the length 3 inside the scan-size
    range), [scan_frequencies] stores the triple and programs the sweep:
    step (stop - start) / (points - 1), sweep start one step below the
    nominal start, the stored scan power, external trigger.  The instrument
    is then in sweep mode, so the following [start_scan] sends nothing but
    the output switch, polls until the output reads "on" and locks. *)
Theorem scan_setup_then_start_scan :
  forall (fuel : nat) (st : Driver) (start stop points : float),
    module_state st = idle ->
    fst (frequency_in_range (_constraints st) (py_min3 (start, stop, points))) = true ->
    fst (frequency_in_range (_constraints st) (py_max3 (start, stop, points))) = true ->
    fst (scan_size_in_range (_constraints st) 3) = true ->
    (latency (_device st) < fuel)%nat ->
    exists st1 st2 : Driver,
      scan_frequencies_setter fuel [start; stop; points] st = Some (Ret tt, st1)
      /\ module_state st1 = idle
      /\ _scan_frequencies st1 = Some [start; stop; points]
      /\ _cw_frequency st1 = _cw_frequency st
      /\ _cw_power st1 = _cw_power st
      /\ written (_device st1) =
           written (_device st)
           ++ match freq_mode (_device st) with
              | CW => [FREQ_MODE SWEEP; WAI]
              | SWEEP => []
              end
           ++ [SWE_MODE_STEP; SWE_SPAC_LIN; WAI;
               FREQ_START (F64.sub start (sweep_step (start, stop, points)));
               FREQ_STOP stop;
               SWE_STEP_LIN (sweep_step (start, stop, points));
               WAI; POW (_scan_power st); WAI; TRIG_FSW_SOUR_EXT; WAI]
      /\ start_scan fuel st1 = Some (Ret tt, st2)
      /\ module_state st2 = locked
      /\ freq_mode (_device st2) = SWEEP
      /\ outp_reported (_device st2) = true
      /\ written (_device st2) = written (_device st1) ++ [OUTP_STAT true].
Proof.
  intros fuel st start stop points Hi Hmin Hmax Hsz Hf.
  destruct (write_sweep_run fuel (set_scan_frequencies (Some [start; stop; points]) st)
              start stop points eq_refl Hf)
    as [st1 [E1 [Hms [Hsp [Hl [Hm [_ Hw]]]]]]].
  unfold setpoints in Hsp. cbn in Hsp. inversion Hsp as [[Hcf Hcp Hp Hsf]].
  assert (I1 : module_state st1 = idle) by (rewrite Hms; exact Hi).
  assert (Hf1 : (latency (_device st1) < fuel)%nat) by (rewrite Hl; exact Hf).
  destruct (start_scan_idle_set fuel st1 [start; stop; points] I1 Hsf Hf1)
    as [st2 [E2 [L2 [_ [M2 [O2 W2]]]]]].
  rewrite Hm in W2. cbn [app] in W2.
  exists st1, st2. split.
  { unfold scan_frequencies_setter. run_method. rewrite Hi. cbn [is_idle negb].
    run_method.
    change (py_min [start; stop; points]) with (Some (py_min3 (start, stop, points))).
    change (py_max [start; stop; points]) with (Some (py_max3 (start, stop, points))).
    change (py_len [start; stop; points]) with 3.
    cbv iota. rewrite Hmin, Hmax. cbn [andb assert_]. run_method.
    rewrite Hsz. cbn [assert_]. run_method. exact E1. }
  repeat split; try assumption. rewrite Hp. exact Hw.
Qed.

Lemma scan_setup_then_start_scan_witness :
  exists st1 st2 : Driver,
    scan_frequencies_setter 3 [F64.of_Z 1000000000; F64.of_Z 2000000000; F64.of_Z 9001]
                            bench_driver = Some (Ret tt, st1)
    /\ module_state st1 = idle
    /\ _scan_frequencies st1 =
         Some [F64.of_Z 1000000000; F64.of_Z 2000000000; F64.of_Z 9001]
    /\ _cw_frequency st1 = _cw_frequency bench_driver
    /\ _cw_power st1 = _cw_power bench_driver
    /\ written (_device st1) =
         written (_device bench_driver)
         ++ match freq_mode (_device bench_driver) with
            | CW => [FREQ_MODE SWEEP; WAI]
            | SWEEP => []
            end
         ++ [SWE_MODE_STEP; SWE_SPAC_LIN; WAI;
             FREQ_START (F64.sub (F64.of_Z 1000000000)
                           (sweep_step (F64.of_Z 1000000000, F64.of_Z 2000000000,
                                        F64.of_Z 9001)));
             FREQ_STOP (F64.of_Z 2000000000);
             SWE_STEP_LIN (sweep_step (F64.of_Z 1000000000, F64.of_Z 2000000000,
                                       F64.of_Z 9001));
             WAI; POW (_scan_power bench_driver); WAI; TRIG_FSW_SOUR_EXT; WAI]
    /\ start_scan 3 st1 = Some (Ret tt, st2)
    /\ module_state st2 = locked
    /\ freq_mode (_device st2) = SWEEP
    /\ outp_reported (_device st2) = true
    /\ written (_device st2) = written (_device st1) ++ [OUTP_STAT true].
Proof.
  apply (scan_setup_then_start_scan
           3%nat bench_driver
           (F64.of_Z 1000000000) (F64.of_Z 2000000000) (F64.of_Z 9001)).
  - reflexivity.
  - vm_compute. reflexivity.
  - vm_compute. reflexivity.
  - reflexivity.
  - simpl. lia.
Defined.

(** [_write_sweep] on a stored sequence that does not have three elements:
    the mode switch, if needed, is sent and confirmed, then the unpacking
    raises. *)
Lemma write_sweep_wrong_length (fuel : nat) (st : Driver) (v : list float) :
  _scan_frequencies st = Some v ->
  List.length v <> 3%nat ->
  (latency (_device st) < fuel)%nat ->
  exists st' : Driver,
    _write_sweep fuel st = Some (Raise ValueError, st')
    /\ module_state st' = module_state st
    /\ setpoints st' = setpoints st
    /\ latency (_device st') = latency (_device st)
    /\ freq_mode (_device st') = SWEEP
    /\ written (_device st') =
         written (_device st)
         ++ match freq_mode (_device st) with
            | CW => [FREQ_MODE SWEEP; WAI]
            | SWEEP => []
            end.
Proof.
  intros Hs Hlen Hf. unfold _write_sweep. run_method.
  destruct (freq_mode (_device st)) eqn:Hm; run_method; rewrite Hs;
    (destruct v as [|a [|b [|c [|d t]]]];
     [ | | | exfalso; apply Hlen; reflexivity | ]);
    unfold raise; eexists; (split; [reflexivity|]);
    repeat split; try reflexivity; try exact Hm;
    cbn; rewrite ?app_nil_r, <- ?app_assoc; reflexivity.
Qed.

(** X17.  A sequence of the wrong length is stored before it is refused.
    On an idle module, a value whose smallest and largest elements are
    inside the frequency range and whose length is inside the scan-size
    range, but is not 3, passes both assertions of the [scan_frequencies]
    setter: the value is stored, the instrument is switched to sweep mode if
    it was in CW mode, and only then the unpacking in [_write_sweep] raises
    [ValueError].  No sweep has been programmed, yet the module is left idle
    with a stored value, so a following [start_scan] passes its check,
    switches the output on and locks. *)
Theorem scan_frequencies_wrong_length_stored_then_raises :
  forall (fuel : nat) (st : Driver) (value : list float) (lowest highest : float),
    module_state st = idle ->
    py_min value = Some lowest ->
    py_max value = Some highest ->
    fst (frequency_in_range (_constraints st) lowest) = true ->
    fst (frequency_in_range (_constraints st) highest) = true ->
    fst (scan_size_in_range (_constraints st) (py_len value)) = true ->
    List.length value <> 3%nat ->
    (latency (_device st) < fuel)%nat ->
    exists st1 st2 : Driver,
      scan_frequencies_setter fuel value st = Some (Raise ValueError, st1)
      /\ module_state st1 = idle
      /\ _scan_frequencies st1 = Some value
      /\ freq_mode (_device st1) = SWEEP
      /\ written (_device st1) =
           written (_device st)
           ++ match freq_mode (_device st) with
              | CW => [FREQ_MODE SWEEP; WAI]
              | SWEEP => []
              end
      /\ start_scan fuel st1 = Some (Ret tt, st2)
      /\ module_state st2 = locked
      /\ written (_device st2) = written (_device st1) ++ [OUTP_STAT true].
Proof.
  intros fuel st value lowest highest Hi Hmin Hmax Hlo Hhi Hsz Hlen Hf.
  destruct (write_sweep_wrong_length fuel (set_scan_frequencies (Some value) st)
              value eq_refl Hlen Hf)
    as [st1 [E1 [Hms [Hsp [Hl [Hm Hw]]]]]].
  unfold setpoints in Hsp. cbn in Hsp. injection Hsp as Hcf Hcp Hp Hsf.
  assert (I1 : module_state st1 = idle) by (rewrite Hms; exact Hi).
  assert (Hf1 : (latency (_device st1) < fuel)%nat) by (rewrite Hl; exact Hf).
  destruct (start_scan_idle_set fuel st1 value I1 Hsf Hf1)
    as [st2 [E2 [L2 [_ [_ [_ W2]]]]]].
  rewrite Hm in W2. cbn [app] in W2.
  exists st1, st2. split.
  { unfold scan_frequencies_setter. run_method. rewrite Hi. cbn [is_idle negb].
    run_method. rewrite Hmin, Hmax, Hlo, Hhi. cbn [andb assert_]. run_method.
    rewrite Hsz. cbn [assert_]. run_method. exact E1. }
  repeat split; assumption.
Qed.

Lemma scan_frequencies_wrong_length_stored_then_raises_witness :
  exists st1 st2 : Driver,
    scan_frequencies_setter 3 [F64.of_Z 1000000000; F64.of_Z 2000000000] bench_driver
      = Some (Raise ValueError, st1)
    /\ module_state st1 = idle
    /\ _scan_frequencies st1 = Some [F64.of_Z 1000000000; F64.of_Z 2000000000]
    /\ freq_mode (_device st1) = SWEEP
    /\ written (_device st1) =
         written (_device bench_driver)
         ++ match freq_mode (_device bench_driver) with
            | CW => [FREQ_MODE SWEEP; WAI]
            | SWEEP => []
            end
    /\ start_scan 3 st1 = Some (Ret tt, st2)
    /\ module_state st2 = locked
    /\ written (_device st2) = written (_device st1) ++ [OUTP_STAT true].
Proof.
  apply (scan_frequencies_wrong_length_stored_then_raises
           3%nat bench_driver [F64.of_Z 1000000000; F64.of_Z 2000000000]
           (F64.of_Z 1000000000) (F64.of_Z 2000000000)).
  - reflexivity.
  - vm_compute. reflexivity.
  - vm_compute. reflexivity.
  - vm_compute. reflexivity.
  - vm_compute. reflexivity.
  - reflexivity.
  - simpl. lia.
  - simpl. lia.
Defined.

(** ** The text of the replies *)

Lemma py_split_nonempty (sep : ascii) (s : string) : py_split sep s <> [].
Proof.
  destruct s as [|c s]; cbn; [discriminate|].
  destruct (Ascii.eqb c sep); [discriminate|].
  destruct (py_split sep s); discriminate.
Qed.

Lemma py_join_cons (sep : ascii) (f : string) (fs : list string) :
  fs <> [] -> py_join sep (f :: fs) = (f ++ String sep (py_join sep fs))%string.
Proof. destruct fs; [intros H; contradiction H; reflexivity | reflexivity]. Qed.

Lemma py_join_cons_char (sep c : ascii) (f : string) (fs : list string) :
  py_join sep (String c f :: fs) = String c (py_join sep (f :: fs)).
Proof. destruct fs; reflexivity. Qed.

Lemma py_join_split (sep : ascii) (s : string) : py_join sep (py_split sep s) = s.
Proof.
  induction s as [|c s IH]; [reflexivity|]. cbn [py_split].
  destruct (Ascii.eqb_spec c sep) as [->|Hne].
  - rewrite py_join_cons by apply py_split_nonempty. rewrite IH. reflexivity.
  - destruct (py_split sep s) as [|f fs] eqn:E.
    + exfalso. exact (py_split_nonempty sep s E).
    + rewrite py_join_cons_char, IH. reflexivity.
Qed.

Lemma py_split_fields_clean (sep : ascii) (s : string) :
  Forall (fun f => has_char sep f = false) (py_split sep s).
Proof.
  induction s as [|c s IH]; cbn [py_split].
  - constructor; [reflexivity | constructor].
  - destruct (Ascii.eqb c sep) eqn:Ec.
    + constructor; [reflexivity | exact IH].
    + destruct (py_split sep s) as [|f fs].
      * constructor; [cbn; rewrite Ec; reflexivity | constructor].
      * inversion IH; subst. constructor; [cbn; rewrite Ec; assumption | assumption].
Qed.

Lemma py_split_app_sep (sep : ascii) (a rest : string) :
  has_char sep a = false ->
  py_split sep (a ++ String sep rest) = a :: py_split sep rest.
Proof.
  induction a as [|c a IH]; cbn; intros H.
  - rewrite Ascii.eqb_refl. reflexivity.
  - apply orb_false_iff in H. destruct H as [Hc Ha].
    rewrite Hc, (IH Ha). reflexivity.
Qed.

Lemma py_split_clean (sep : ascii) (a : string) :
  has_char sep a = false -> py_split sep a = [a].
Proof.
  induction a as [|c a IH]; cbn; intros H; [reflexivity|].
  apply orb_false_iff in H. destruct H as [Hc Ha].
  rewrite Hc, (IH Ha). reflexivity.
Qed.

(** X14.  The model name is the second comma-separated field of the
    identification reply.  Splitting loses nothing (joining the fields with
    commas gives the reply back) and no field contains a comma; for a reply
    "a,b" or "a,b,rest" with comma-free a and b the field kept is b; and the
    lookup fails, with an [IndexError], exactly when the reply has no comma. *)
Theorem idn_reply_model_field :
  forall reply : string,
    py_join comma (py_split comma reply) = reply
    /\ Forall (fun f => has_char comma f = false) (py_split comma reply)
    /\ (idn_model_field reply = None <-> has_char comma reply = false)
    /\ (forall a b rest : string,
           has_char comma a = false ->
           has_char comma b = false ->
           (reply = a ++ String comma b
            \/ reply = a ++ String comma (b ++ String comma rest))%string ->
           idn_model_field reply = Some b).
Proof.
  intros reply. split; [apply py_join_split|].
  split; [apply py_split_fields_clean|]. split.
  - unfold idn_model_field. split.
    + intros H. destruct (has_char comma reply) eqn:Hc; [|reflexivity].
      exfalso. revert H. clear - Hc.
      induction reply as [|c s IH]; [discriminate Hc|]. cbn in *.
      destruct (Ascii.eqb c comma) eqn:Ec.
      * destruct (py_split comma s) eqn:E; [exact (fun _ => py_split_nonempty _ _ E)|].
        discriminate.
      * cbn in Hc. specialize (IH Hc).
        destruct (py_split comma s) as [|f [|g fs]]; cbn in *;
          try discriminate; exact IH.
    + intros H. rewrite (py_split_clean comma reply H). reflexivity.
  - intros a b rest Ha Hb [->| ->]; unfold idn_model_field.
    + rewrite (py_split_app_sep comma a b Ha), (py_split_clean comma b Hb).
      reflexivity.
    + rewrite (py_split_app_sep comma a _ Ha), (py_split_app_sep comma b rest Hb).
      reflexivity.
Qed.

Lemma py_lstrip_newlines (i : nat) (s : string) :
  py_lstrip_nl (newlines i ++ s) = py_lstrip_nl s.
Proof. induction i as [|i IH]; [reflexivity | exact IH]. Qed.

Lemma py_lstrip_decompose (s : string) :
  exists i : nat, s = (newlines i ++ py_lstrip_nl s)%string.
Proof.
  induction s as [|c s [i IH]]; [exists O; reflexivity|]. cbn [py_lstrip_nl].
  destruct (Ascii.eqb_spec c newline) as [->|Hne].
  - exists (Datatypes.S i). cbn. rewrite <- IH. reflexivity.
  - exists O. reflexivity.
Qed.

Lemma py_rstrip_newlines (j : nat) : py_rstrip_nl (newlines j) = EmptyString.
Proof. induction j as [|j IH]; [reflexivity|]. cbn. rewrite IH. reflexivity. Qed.

Lemma py_rstrip_decompose (s : string) :
  exists j : nat, s = (py_rstrip_nl s ++ newlines j)%string.
Proof.
  induction s as [|c s [j IH]]; [exists O; reflexivity|]. cbn [py_rstrip_nl].
  destruct (py_rstrip_nl s) as [|r rs] eqn:E.
  - destruct (Ascii.eqb_spec c newline) as [->|Hne].
    + exists (Datatypes.S j). cbn in *. rewrite <- IH. reflexivity.
    + exists j. cbn in *. rewrite <- IH. reflexivity.
  - exists j. cbn in *. rewrite <- IH. reflexivity.
Qed.

Lemma ascii_lower_c (a : ascii) :
  ascii_lower a = "c"%char -> a = "c"%char \/ a = "C"%char.
Proof.
  destruct a as [[] [] [] [] [] [] [] []]; vm_compute; intros H;
    try discriminate H; auto.
Qed.

Lemma ascii_lower_w (a : ascii) :
  ascii_lower a = "w"%char -> a = "w"%char \/ a = "W"%char.
Proof.
  destruct a as [[] [] [] [] [] [] [] []]; vm_compute; intros H;
    try discriminate H; auto.
Qed.

(** X15.  What [_in_cw_mode] accepts as "CW".  The reply counts as CW
    exactly when it is the two letters c and w, in either case, with any
    number of newline characters before and after: case and surrounding
    newlines are ignored, every other character (a space, a carriage return)
    makes the instrument count as not in CW mode. *)
Theorem cw_reply_accepts_exactly :
  forall reply : string,
    cw_reply reply = true <->
    exists (i j : nat) (c w : ascii),
      reply = (newlines i ++ String c (String w EmptyString) ++ newlines j)%string
      /\ (c = "c"%char \/ c = "C"%char)
      /\ (w = "w"%char \/ w = "W"%char).
Proof.
  intros reply. unfold cw_reply. rewrite String.eqb_eq. split.
  - intros H.
    destruct (py_lstrip_decompose reply) as [i Hi].
    destruct (py_rstrip_decompose (py_lstrip_nl reply)) as [j Hj].
    unfold py_strip_nl in H.
    destruct (py_rstrip_nl (py_lstrip_nl reply)) as [|c [|w [|x t]]];
      cbn in H; try discriminate H.
    injection H as Hc Hw.
    exists i, j, c, w. split; [|split].
    + rewrite Hi at 1. rewrite Hj at 1. reflexivity.
    + apply ascii_lower_c. exact Hc.
    + apply ascii_lower_w. exact Hw.
  - intros [i [j [c [w [-> [Hc Hw]]]]]].
    unfold py_strip_nl. rewrite py_lstrip_newlines.
    assert (Hcn : Ascii.eqb c newline = false)
      by (destruct Hc as [->| ->]; reflexivity).
    assert (Hwn : Ascii.eqb w newline = false)
      by (destruct Hw as [->| ->]; reflexivity).
    cbn [append py_lstrip_nl]. rewrite Hcn.
    cbn [py_rstrip_nl]. rewrite py_rstrip_newlines, Hwn.
    destruct Hc as [->| ->], Hw as [->| ->]; reflexivity.
Qed.
